(** * Galaxy HDA manager, serializer and deserializer
      (lib/galaxy/managers/hdas.py): a shallow embedding and its properties.

    Python objects live in a store keyed by object identity; the manager's
    methods are programs of a state-and-exception monad over that store.
    Everything the module calls into but does not define (the parent
    managers, the ORM session, the model classes' methods, the user manager)
    is a field of the [App] class; each such call is recorded in a log so
    that properties about which collaborator is called, with what and in
    which order, can be stated. *)

From Stdlib Require Import ZArith.
From stdpp Require Import base option gmap strings list.

Open Scope Z_scope.
Open Scope string_scope.

(** ** Data model *)

(** Object identity of a model object (what Python's [is] compares; the ORM's
    [==] on mapped objects is identity as well). *)
Abbreviation ref := nat.

(** JSON-like values: keyword arguments, payloads, serialized fields. *)
Inductive Value : Type :=
| VNone
| VBool (b : bool)
| VInt (z : Z)
| VStr (s : string)
| VObj (r : ref).

(** A nullable text attribute as a value. *)
Definition text_value (t : option string) : Value :=
  match t with
  | None => VNone
  | Some s => VStr s
  end.

(** Exceptions; [Dangling] is for a reference the store has no object for,
    which a store closed under its references never raises. *)
Inductive Exn : Type :=
| NameError (name : string)
| AttributeError (attr : string)
| TypeError (msg : string)
| Conflict (msg : string)
| RequestParameterInvalid (key : string)
| KeyError (key : string)
| Dangling (r : ref)
| OtherError (msg : string).

Inductive Result (A : Type) : Type :=
| Ok (a : A)
| Raise (e : Exn).
Arguments Ok {A} a.
Arguments Raise {A} e.

Module User.
Record t : Type := mk { total_disk_usage : Z }.
End User.

Module History.
Record t : Type := mk { user : option ref }.
End History.

Module Datatype.
(** [is_Text] is [isinstance( datatype, datatypes.data.Text )]. *)
Record t : Type := mk { is_Text : bool; copy_safe_peek : bool }.
End Datatype.

Module Trans.
(** The transaction: [trans.user] and what [trans.get_history()] returns. *)
Record t : Type := mk { user : option ref; history : option ref }.
Definition get_history (trans : t) : option ref := history trans.
End Trans.

Module HDA.
(** The attributes of a HistoryDatasetAssociation this module reads or
    writes; [state], [datatype] and [file_name] are what the properties of
    those names yield. *)
Record t : Type := mk {
  name : option string;
  info : option string;
  blurb : option string;
  peek : option string;
  tool_version : option string;
  extension : option string;
  dbkey : option string;
  dataset : option ref;
  visible : bool;
  deleted : bool;
  parent_id : Value;
  hid : option Z;
  history : option ref;
  copied_from_history_dataset_association : option ref;
  metadata : Value;
  state : string;
  _state : option string;
  datatype : Datatype.t;
  file_name : string;
  total_size : Z
}.

Definition with_info (v : option string) (h : t) : t :=
  mk (name h) v (blurb h) (peek h) (tool_version h) (extension h) (dbkey h)
     (dataset h) (visible h) (deleted h) (parent_id h) (hid h) (history h)
     (copied_from_history_dataset_association h) (metadata h) (state h)
     (_state h) (datatype h) (file_name h) (total_size h).

Definition with_dbkey (v : option string) (h : t) : t :=
  mk (name h) (info h) (blurb h) (peek h) (tool_version h) (extension h) v
     (dataset h) (visible h) (deleted h) (parent_id h) (hid h) (history h)
     (copied_from_history_dataset_association h) (metadata h) (state h)
     (_state h) (datatype h) (file_name h) (total_size h).

Definition with_peek (v : option string) (h : t) : t :=
  mk (name h) (info h) (blurb h) v (tool_version h) (extension h) (dbkey h)
     (dataset h) (visible h) (deleted h) (parent_id h) (hid h) (history h)
     (copied_from_history_dataset_association h) (metadata h) (state h)
     (_state h) (datatype h) (file_name h) (total_size h).

Definition with_visible (v : bool) (h : t) : t :=
  mk (name h) (info h) (blurb h) (peek h) (tool_version h) (extension h)
     (dbkey h) (dataset h) v (deleted h) (parent_id h) (hid h) (history h)
     (copied_from_history_dataset_association h) (metadata h) (state h)
     (_state h) (datatype h) (file_name h) (total_size h).

Definition with_history (v : option ref) (h : t) : t :=
  mk (name h) (info h) (blurb h) (peek h) (tool_version h) (extension h)
     (dbkey h) (dataset h) (visible h) (deleted h) (parent_id h) (hid h) v
     (copied_from_history_dataset_association h) (metadata h) (state h)
     (_state h) (datatype h) (file_name h) (total_size h).

Definition with_copied_from (v : option ref) (h : t) : t :=
  mk (name h) (info h) (blurb h) (peek h) (tool_version h) (extension h)
     (dbkey h) (dataset h) (visible h) (deleted h) (parent_id h) (hid h)
     (history h) v (metadata h) (state h) (_state h) (datatype h)
     (file_name h) (total_size h).

Definition with_metadata (v : Value) (h : t) : t :=
  mk (name h) (info h) (blurb h) (peek h) (tool_version h) (extension h)
     (dbkey h) (dataset h) (visible h) (deleted h) (parent_id h) (hid h)
     (history h) (copied_from_history_dataset_association h) v (state h)
     (_state h) (datatype h) (file_name h) (total_size h).

Definition with_state (v : string) (h : t) : t :=
  mk (name h) (info h) (blurb h) (peek h) (tool_version h) (extension h)
     (dbkey h) (dataset h) (visible h) (deleted h) (parent_id h) (hid h)
     (history h) (copied_from_history_dataset_association h) (metadata h) v
     (_state h) (datatype h) (file_name h) (total_size h).

Definition with_total_size (v : Z) (h : t) : t :=
  mk (name h) (info h) (blurb h) (peek h) (tool_version h) (extension h)
     (dbkey h) (dataset h) (visible h) (deleted h) (parent_id h) (hid h)
     (history h) (copied_from_history_dataset_association h) (metadata h)
     (state h) (_state h) (datatype h) (file_name h) v.
End HDA.

(** The store: the mapped objects by identity, the objects added to the
    session and not yet flushed, and the files on disk. *)
Record Heap : Type := mkHeap {
  users : gmap ref User.t;
  histories : gmap ref History.t;
  hdas : gmap ref HDA.t;
  session_new : list ref;
  files : gmap string (list Byte.byte)
}.

Definition set_users (f : gmap ref User.t → gmap ref User.t) (h : Heap) : Heap :=
  mkHeap (f (users h)) (histories h) (hdas h) (session_new h) (files h).
Definition set_hdas (f : gmap ref HDA.t → gmap ref HDA.t) (h : Heap) : Heap :=
  mkHeap (users h) (histories h) (f (hdas h)) (session_new h) (files h).
Definition set_session_new (f : list ref → list ref) (h : Heap) : Heap :=
  mkHeap (users h) (histories h) (hdas h) (f (session_new h)) (files h).

(** What the module does that is visible from outside: calls into its
    collaborators, object construction and attribute writes. *)
Inductive Event : Type :=
| EvSuperIsAccessible (trans : Trans.t) (hda : ref) (user : option ref)
| EvSuperCreate (trans : Trans.t) (flush : bool) (history dataset : option ref)
                (kwargs : gmap string Value)
| EvSuperPurge (trans : Trans.t) (hda : ref) (flush : bool)
| EvQuotaAmount (hda : ref) (user : ref)
| EvAddDataset (history hda : ref)
| EvSetSize (hda : ref)
| EvSetPeek (hda : ref)
| EvSessionAdd (obj : ref)
| EvSessionFlush
| EvNew (hda : ref)
| EvSetAttr (obj : ref) (attr : string)
| EvSerializer (method : string) (item : ref) (key : string).

Record World : Type := mkWorld { heap : Heap; log : list Event }.

(** ** The monad of manager methods: store passing with exceptions.
    A raised exception keeps the store as it was when it was raised. *)
Definition M (A : Type) : Type := World → Result A * World.

Definition ret {A} (a : A) : M A := λ w, (Ok a, w).
Definition raise {A} (e : Exn) : M A := λ w, (Raise e, w).
Definition bind {A B} (m : M A) (k : A → M B) : M B :=
  λ w, match m w with
       | (Ok a, w') => k a w'
       | (Raise e, w') => (Raise e, w')
       end.

#[global] Instance M_ret : MRet M := @ret.
#[global] Instance M_bind : MBind M := λ A B k m, bind m k.

(** A collaborator acts on the store; the monad keeps the log. *)
Definition Collab (A : Type) : Type := Heap → Result A * Heap.

Definition call {A} (ev : Event) (c : Collab A) : M A :=
  λ w, let (r, h') := c (heap w) in (r, mkWorld h' (log w ++ [ev])).

Definition emit (ev : Event) : M unit :=
  λ w, (Ok (), mkWorld (heap w) (log w ++ [ev])).

Definition get_heap : M Heap := λ w, (Ok (heap w), w).
Definition modify_heap (f : Heap → Heap) : M unit :=
  λ w, (Ok (), mkWorld (f (heap w)) (log w)).

Definition load {A} (r : ref) (m : Heap → gmap ref A) : M A :=
  λ w, match m (heap w) !! r with
       | Some o => (Ok o, w)
       | None => (Raise (Dangling r), w)
       end.

Definition get_hda (r : ref) : M HDA.t := load r hdas.
Definition get_history (r : ref) : M History.t := load r histories.
Definition get_user (r : ref) : M User.t := load r users.

(** [obj.attr = v] on an HDA. *)
Definition set_hda_attr (r : ref) (attr : string) (f : HDA.t → HDA.t) : M unit :=
  _ ← get_hda r;
  modify_heap (set_hdas (alter f r));;
  emit (EvSetAttr r attr).

(** ** Collaborators *)
Class App : Type := {
  (** [users.UserManager] *)
  is_admin : Trans.t → option ref → bool;
  is_anonymous : option ref → bool;
  (** [datasets.DatasetAssociationManager], reached through [super] *)
  super_is_accessible : Trans.t → ref → option ref → Collab bool;
  super_create : Trans.t → bool → option ref → option ref →
                 gmap string Value → Collab ref;
  super_purge : Trans.t → ref → bool → Collab unit;
  (** [model.History.add_dataset] and methods of the HDA model class *)
  add_dataset : ref → ref → Collab unit;
  set_size : ref → Collab unit;
  set_peek : ref → Collab unit;
  quota_amount : ref → ref → Collab Z;
  (** attributes of a newly constructed HDA that the constructor call
      does not name *)
  new_hda : HDA.t;
  (** the ORM session *)
  session_add : ref → Collab unit;
  session_flush : Collab unit;
  (** serializer methods whose results are made elsewhere (ids, urls,
      display applications, visualizations), by method name *)
  external_serializer : string → Trans.t → ref → string → Collab Value;
  (** state and message constants of the model classes *)
  Dataset_states_UPLOAD : string;
  Dataset_states_RESUBMITTED : string;
  Job_states_ERROR : string;
  Job_states_OK : string;
  conversion_messages_NO_DATA : string;
  conversion_messages_ERROR : string;
  conversion_messages_PENDING : string
}.

(** ** HDAManager *)
Module HDAManager.
Section Manager.
Context `{App}.

(** [is_owner]: "Use history to see if current user owns HDA."  An HDA
    without a history has no [history.user] to read. *)
Definition is_owner (trans : Trans.t) (hda : ref) (user : option ref) : M bool :=
  h ← get_hda hda;
  let history := HDA.history h in
  if is_admin trans user then mret true
  else if is_anonymous user && bool_decide (history = Trans.get_history trans)
  then mret true
  else match history with
       | None => raise (AttributeError "user")
       | Some hist =>
           hi ← get_history hist;
           mret (bool_decide (History.user hi = user))
       end.

(** [is_accessible]: "Override to allow owners (those that own the
    associated history)." *)
Definition is_accessible (trans : Trans.t) (hda : ref) (user : option ref) : M bool :=
  owner ← is_owner trans hda user;
  if owner : bool then mret true
  else call (EvSuperIsAccessible trans hda user)
            (super_is_accessible trans hda user).

(** [create]: "Create a new hda optionally passing in it's history and
    dataset."  The parent's [create] receives [sa_session] by keyword next to
    [**kwargs]; a caller's own [sa_session] keyword is a duplicate keyword
    argument. *)
Definition create (trans : Trans.t) (history dataset : option ref)
    (flush : bool) (kwargs : gmap string Value) : M ref :=
  let kwargs :=
    if dataset is None then <["create_dataset" := VBool true]> kwargs
    else kwargs in
  if bool_decide (is_Some (kwargs !! "sa_session"))
  then raise (TypeError "got multiple values for keyword argument 'sa_session'")
  else
    hda ← call (EvSuperCreate trans flush history dataset kwargs)
               (super_create trans flush history dataset kwargs);
    match history with
    | Some hist =>
        let set_hid := negb (bool_decide (is_Some (kwargs !! "hid"))) in
        call (EvAddDataset hist hda) (add_dataset hist hda)
    | None => mret ()
    end;;
    call (EvSessionAdd hda) (session_add hda);;
    (if flush then call EvSessionFlush session_flush else mret ());;
    mret hda.

(** [model.HistoryDatasetAssociation( ... )]: a new object, distinct from
    every object of the store, carrying the given attributes. *)
Definition HistoryDatasetAssociation (fields : HDA.t) : M ref :=
  λ w, let r := fresh (dom (hdas (heap w))) in
       (Ok r, mkWorld (set_hdas <[r := fields]> (heap w)) (log w ++ [EvNew r])).

(** [kwargs.get( key, None )] *)
Definition kwargs_get (kwargs : gmap string Value) (key : string) : Value :=
  default VNone (kwargs !! key).

(** [copy]: "Copy and return the given HDA." *)
Definition copy (trans : Trans.t) (hda : ref) (history : option ref)
    (kwargs : gmap string Value) : M ref :=
  h ← get_hda hda;
  copy ← HistoryDatasetAssociation
    (HDA.mk (HDA.name h) (HDA.info h) (HDA.blurb h) (HDA.peek h)
       (HDA.tool_version h) (HDA.extension h) (HDA.dbkey h) (HDA.dataset h)
       (HDA.visible h) (HDA.deleted h) (kwargs_get kwargs "parent_id")
       (HDA.hid new_hda) (HDA.history new_hda)
       (HDA.copied_from_history_dataset_association new_hda)
       (HDA.metadata new_hda) (HDA.state new_hda) (HDA._state new_hda)
       (HDA.datatype new_hda) (HDA.file_name new_hda)
       (HDA.total_size new_hda));
  match history with
  | Some hist => call (EvAddDataset hist copy) (add_dataset hist copy)
  | None => mret ()
  end;;
  set_hda_attr copy "copied_from_history_dataset_association"
    (HDA.with_copied_from (Some hda));;
  call (EvSetSize copy) (set_size copy);;
  call (EvSessionAdd copy) (session_add copy);;
  call EvSessionFlush session_flush;;
  h1 ← get_hda hda;
  set_hda_attr copy "metadata" (HDA.with_metadata (HDA.metadata h1));;
  h2 ← get_hda hda;
  (if negb (Datatype.copy_safe_peek (HDA.datatype h2))
   then call (EvSetPeek copy) (set_peek copy)
   else mret ());;
  call EvSessionFlush session_flush;;
  mret copy.

(** [trans.user.total_disk_usage = v] *)
Definition set_total_disk_usage (u : ref) (v : Z) : M unit :=
  modify_heap (set_users <[u := User.mk v]>);;
  emit (EvSetAttr u "total_disk_usage").

(** [purge]: "Purge this HDA and the dataset underlying it."  The augmented
    assignment reads the attribute, then evaluates the right-hand side, then
    stores the difference. *)
Definition purge (trans : Trans.t) (hda : ref) (flush : bool) : M ref :=
  call (EvSuperPurge trans hda flush) (super_purge trans hda flush);;
  match Trans.user trans with
  | Some u =>
      usr ← get_user u;
      amount ← call (EvQuotaAmount hda u) (quota_amount hda u);
      set_total_disk_usage u (User.total_disk_usage usr - amount)
  | None => mret ()
  end;;
  mret hda.

(** [error_if_uploading]: "Raise error if HDA is still uploading." *)
Definition error_if_uploading (trans : Trans.t) (hda : ref) : M ref :=
  h ← get_hda hda;
  if bool_decide (HDA.state h = Dataset_states_UPLOAD)
  then raise (Conflict "Please wait until this dataset finishes uploading")
  else mret hda.

(** [data_conversion_status]: "Returns a message if an hda is not ready to be
    used in visualization." *)
Definition data_conversion_status (trans : Trans.t) (hda : option ref) : M Value :=
  match hda with
  | None => mret (VStr conversion_messages_NO_DATA)
  | Some r =>
      h ← get_hda r;
      if bool_decide (HDA.state h = Job_states_ERROR)
      then mret (VStr conversion_messages_ERROR)
      else if negb (bool_decide (HDA.state h = Job_states_OK))
      then mret (VStr conversion_messages_PENDING)
      else mret VNone
  end.

(** Names bound at module level in hdas.py (imports, [log], the classes). *)
Definition module_globals : list string :=
  ["os"; "gettext"; "model"; "exceptions"; "datatypes"; "objectstore";
   "datasets"; "secured"; "taggable"; "annotatable"; "users"; "logging";
   "log"; "HDAManager"; "HDASerializer"; "HDADeserializer"; "HDAFilterParser"].

(** Reading an integer variable: the function's locals first, then the
    module's globals (none of which is an integer); a name bound in neither
    (nor a builtin) is a [NameError]. *)
Definition load_int (locals : gmap string Z) (name : string) : M Z :=
  match locals !! name with
  | Some z => mret z
  | None =>
      if bool_decide (name ∈ module_globals)
      then raise (TypeError "an integer is required")
      else raise (NameError name)
  end.

(** [text_data]: "Get data from text file, truncating if necessary." *)
Definition text_data (hda : ref) (preview : bool)
    : M (bool * option (list Byte.byte)) :=
  let locals : gmap string Z := {["MAX_PEEK_SIZE" := 1000000]} in
  let truncated := false in
  let hda_data := None in
  h ← get_hda hda;
  if negb (Datatype.is_Text (HDA.datatype h)) then mret (truncated, hda_data)
  else
    hp ← get_heap;
    match files hp !! HDA.file_name h with
    | None => mret (truncated, hda_data)
    | Some content =>
        truncated ←
          (if preview
           then max ← load_int locals "MAX_PEEK_SIZE";
                mret (bool_decide (max < Z.of_nat (length content)))
           else mret false);
        n ← load_int locals "max_peek_size";
        let hda_data := Some (take (Z.to_nat n) content) in
        mret (truncated, hda_data)
    end.

End Manager.
End HDAManager.

(** ** Attribute access by name, as the (de)serializers use it *)

Definition getattr (h : HDA.t) (attr : string) : M Value :=
  match attr with
  | "name" => mret (text_value (HDA.name h))
  | "info" => mret (text_value (HDA.info h))
  | "blurb" => mret (text_value (HDA.blurb h))
  | "peek" => mret (text_value (HDA.peek h))
  | "tool_version" => mret (text_value (HDA.tool_version h))
  | "extension" => mret (text_value (HDA.extension h))
  | "dbkey" => mret (text_value (HDA.dbkey h))
  | "visible" => mret (VBool (HDA.visible h))
  | "deleted" => mret (VBool (HDA.deleted h))
  | "file_name" => mret (VStr (HDA.file_name h))
  | "state" => mret (VStr (HDA.state h))
  | _ => raise (AttributeError attr)
  end.

(** The writable attributes the deserializers of this module name. *)
Definition setattr (item : ref) (attr : string) (v : Value) : M unit :=
  match attr, v with
  | "info", VStr s => set_hda_attr item attr (HDA.with_info (Some s))
  | "info", VNone => set_hda_attr item attr (HDA.with_info None)
  | "dbkey", VStr s => set_hda_attr item attr (HDA.with_dbkey (Some s))
  | "dbkey", VNone => set_hda_attr item attr (HDA.with_dbkey None)
  | "visible", VBool b => set_hda_attr item attr (HDA.with_visible b)
  | _, _ => raise (AttributeError attr)
  end.

Definition Serializer : Type := Trans.t → ref → string → M Value.
Definition Deserializer : Type := Trans.t → ref → string → Value → M Value.

(** [d.update( entries )]: the entries win over what [d] held. *)
Definition update {A} (d : gmap string A) (entries : list (string * A))
    : gmap string A :=
  list_to_map entries ∪ d.

(** ** HDASerializer *)
Module HDASerializer.
Section Serializer.
Context `{App}.

(** Modelled from the spec: [_remap_from], a method of the parent serializer
    class that is not part of this module.  The serializer it returns
    produces its dictionary key from the named model attribute. *)
Definition _remap_from (original_key : string) : Serializer :=
  λ trans item key, h ← get_hda item; getattr h original_key.

(** Modelled from the spec: the parent serializer's entry for
    ['genome_build'], which is not part of this module; the key maps to the
    model attribute ['dbkey']. *)
Definition inherited_genome_build : Serializer :=
  λ trans item key, h ← get_hda item; getattr h "dbkey".

(** A serializer method modelled only as a call. *)
Definition external (method : string) : Serializer :=
  λ trans item key,
    call (EvSerializer method item key)
         (external_serializer method trans item key).

(** [serialize_type_id]; ['id'] is not a key this class sets, so the
    serializer looked up is the inherited one. *)
Definition serialize_type_id (serializers : gmap string Serializer) : Serializer :=
  λ trans hda key,
    match lookup (A := Serializer) "id" serializers with
    | None => raise (KeyError "id")
    | Some ser =>
        v ← ser trans hda "id";
        match v with
        | VStr s => mret (VStr ("dataset-" ++ s))
        | _ => raise (TypeError "cannot concatenate 'str' and other objects")
        end
    end.

(** [add_serializers]; [serializers] is the table as the parent class and the
    mixins have filled it. *)
Definition add_serializers (serializers : gmap string Serializer)
    : gmap string Serializer :=
  update (A := Serializer) serializers [
    ("model_class", λ _ _ _, mret (VStr "HistoryDatasetAssociation"));
    ("history_content_type", λ _ _ _, mret (VStr "dataset"));
    ("hda_ldda", λ _ _ _, mret (VStr "hda"));
    ("type_id", serialize_type_id serializers);
    ("history_id", external "serialize_id");
    ("misc_info", _remap_from "info");
    ("misc_blurb", _remap_from "blurb");
    ("file_ext", _remap_from "extension");
    ("file_path", _remap_from "file_name");
    ("resubmitted", λ t i k,
        h ← get_hda i;
        mret (VBool (bool_decide (HDA._state h = Some Dataset_states_RESUBMITTED))));
    ("display_apps", external "serialize_display_apps");
    ("display_types", external "serialize_old_display_applications");
    ("visualizations", external "serialize_visualization_links");
    ("url", external "url_for");
    ("urls", external "serialize_urls");
    ("download_url", external "url_for");
    ("parent_id", external "serialize_id");
    ("accessible", λ _ _ _, mret (VBool true));
    ("api_type", λ _ _ _, mret (VStr "file"));
    ("type", λ _ _ _, mret (VStr "file"))
  ].

(** The serializer registered under [key], called as the parent class calls
    it: with the transaction, the item and the key. *)
Definition apply_serializer (serializers : gmap string Serializer)
    (trans : Trans.t) (item : ref) (key : string) : M Value :=
  match lookup (A := Serializer) key serializers with
  | Some ser => ser trans item key
  | None => raise (KeyError key)
  end.

End Serializer.
End HDASerializer.

(** ** HDADeserializer *)
Module HDADeserializer.
Section Deserializer.
Context `{App}.

(** Modelled from the spec: [deserialize_basestring], a method of the parent
    deserializer class that is not part of this module.  It accepts a text
    value (or none) and writes it to the model attribute [key]. *)
Definition deserialize_basestring : Deserializer :=
  λ trans item key val,
    match val with
    | VStr _ | VNone => setattr item key val;; mret val
    | _ => raise (RequestParameterInvalid key)
    end.

(** Modelled from the spec: [deserialize_genome_build], likewise absent; it
    accepts a text value and writes it to the model attribute [key]. *)
Definition deserialize_genome_build : Deserializer :=
  λ trans item key val,
    match val with
    | VStr _ => setattr item key val;; mret val
    | _ => raise (RequestParameterInvalid key)
    end.

(** Modelled from the spec: [deserialize_bool], likewise absent; it accepts a
    boolean and writes it to the model attribute [key]. *)
Definition deserialize_bool : Deserializer :=
  λ trans item key val,
    match val with
    | VBool _ => setattr item key val;; mret val
    | _ => raise (RequestParameterInvalid key)
    end.

(** [add_deserializers]; [deserializers] is the table as the parent class and
    the mixins have filled it. *)
Definition add_deserializers (deserializers : gmap string Deserializer)
    : gmap string Deserializer :=
  update (A := Deserializer) deserializers [
    ("visible", deserialize_bool);
    ("genome_build", λ t i k v, deserialize_genome_build t i "dbkey" v);
    ("misc_info", λ t i k v, deserialize_basestring t i "info" v)
  ].

(** The deserializer registered under [key], called as the parent class
    calls it: with the transaction, the item, the key and the payload's
    value. *)
Definition apply_deserializer (deserializers : gmap string Deserializer)
    (trans : Trans.t) (item : ref) (key : string) (val : Value) : M Value :=
  match lookup (A := Deserializer) key deserializers with
  | Some deser => deser trans item key val
  | None => raise (KeyError key)
  end.

End Deserializer.
End HDADeserializer.

(** ** What the collaborators leave behind *)

(** A call made on (or with) the HDA [obj] took the store [hp] to [hp']: it
    wrote to no other HDA, and [obj] is still in the store, changed only as
    [keep] allows. *)
Definition kept (obj : ref) (keep : HDA.t → HDA.t → Prop) (hp hp' : Heap)
    : Prop :=
  (∀ x, x ≠ obj → hdas hp' !! x = hdas hp !! x) ∧
  (∀ o, hdas hp !! obj = Some o →
        ∃ o', hdas hp' !! obj = Some o' ∧ keep o o').

(** The attributes [copy] hands to the constructor, the peek apart. *)
Definition same_content (o o' : HDA.t) : Prop :=
  HDA.name o' = HDA.name o ∧ HDA.info o' = HDA.info o ∧
  HDA.blurb o' = HDA.blurb o ∧ HDA.tool_version o' = HDA.tool_version o ∧
  HDA.extension o' = HDA.extension o ∧ HDA.dbkey o' = HDA.dbkey o ∧
  HDA.dataset o' = HDA.dataset o ∧ HDA.visible o' = HDA.visible o ∧
  HDA.deleted o' = HDA.deleted o.

(** Those and the two attributes [copy] assigns afterwards. *)
Definition same_copied_but_peek (o o' : HDA.t) : Prop :=
  same_content o o' ∧
  HDA.copied_from_history_dataset_association o' =
    HDA.copied_from_history_dataset_association o ∧
  HDA.metadata o' = HDA.metadata o.

Definition same_copied (o o' : HDA.t) : Prop :=
  same_copied_but_peek o o' ∧ HDA.peek o' = HDA.peek o.

(** The events [copy] adds to the log for the new object [c]. *)
Definition copy_events (history : option ref) (copy_safe_peek : bool)
    (c : ref) : list Event :=
  [EvNew c]
  ++ match history with
     | Some hist => [EvAddDataset hist c]
     | None => []
     end
  ++ [EvSetAttr c "copied_from_history_dataset_association";
      EvSetSize c; EvSessionAdd c; EvSessionFlush; EvSetAttr c "metadata"]
  ++ (if copy_safe_peek then [] else [EvSetPeek c])
  ++ [EvSessionFlush].

(** While [copy] runs: the source is as it was, and the new object [c]
    satisfies [P]. *)
Definition copy_inv (hda : ref) (h : HDA.t) (c : ref) (P : HDA.t → Prop)
    (hp : Heap) : Prop :=
  hdas hp !! hda = Some h ∧ ∃ o, hdas hp !! c = Some o ∧ P o.

(** The reference the constructor call of [copy] returns on the store
    [hp0]. *)
Definition copy_ref (hp0 : Heap) : ref := fresh (dom (hdas hp0)).

Section CopyRuns.
Context `{App}.

(** The object the constructor call of [copy] builds from the source [h]. *)
Definition copy_constructed (h : HDA.t) (kwargs : gmap string Value) : HDA.t :=
  HDA.mk (HDA.name h) (HDA.info h) (HDA.blurb h) (HDA.peek h)
    (HDA.tool_version h) (HDA.extension h) (HDA.dbkey h) (HDA.dataset h)
    (HDA.visible h) (HDA.deleted h) (HDAManager.kwargs_get kwargs "parent_id")
    (HDA.hid new_hda) (HDA.history new_hda)
    (HDA.copied_from_history_dataset_association new_hda)
    (HDA.metadata new_hda) (HDA.state new_hda) (HDA._state new_hda)
    (HDA.datatype new_hda) (HDA.file_name new_hda) (HDA.total_size new_hda).

(** The store after the constructor call, ... *)
Definition copy_constructed_store (h : HDA.t) (kwargs : gmap string Value)
    (hp0 : Heap) : Heap :=
  set_hdas <[copy_ref hp0 := copy_constructed h kwargs]> hp0.

(** ... after [copy.copied_from_history_dataset_association = hda], made on
    the store [hp2] that [add_dataset] left, ... *)
Definition copy_provenance_store (hda c : ref) (hp2 : Heap) : Heap :=
  set_hdas (alter (HDA.with_copied_from (Some hda)) c) hp2.

(** ... and after [copy.metadata = hda.metadata], made on the store [hp6]
    that the first flush left. *)
Definition copy_metadata_store (h : HDA.t) (c : ref) (hp6 : Heap) : Heap :=
  set_hdas (alter (HDA.with_metadata (HDA.metadata h)) c) hp6.

(** A run of [copy] of the HDA [hda], which is [h], on the store [hp0], in
    which every collaborator that is called returns: [add_dataset] (called
    when a history is given) leaves [hp2], [set_size] leaves [hp4], the
    session's [add] leaves [hp5], the first flush [hp6], [set_peek] (called
    when the datatype's peek is not safe to copy) leaves [hp8] and the last
    flush [hp9].  The calls made on the copy write to no other HDA and
    change the copy only as [keep] ([keep_peek] for [set_peek]) allows; the
    session writes no HDA. *)
Record CopyRun (keep keep_peek : HDA.t → HDA.t → Prop)
    (hda : ref) (h : HDA.t) (history : option ref)
    (kwargs : gmap string Value) (hp0 hp2 hp4 hp5 hp6 hp8 hp9 : Heap)
    : Prop := {
  run_add_dataset :
    match history with
    | Some hist =>
        add_dataset hist (copy_ref hp0) (copy_constructed_store h kwargs hp0)
        = (Ok (), hp2)
    | None => hp2 = copy_constructed_store h kwargs hp0
    end;
  run_add_dataset_kept :
    kept (copy_ref hp0) keep (copy_constructed_store h kwargs hp0) hp2;
  run_set_size :
    set_size (copy_ref hp0) (copy_provenance_store hda (copy_ref hp0) hp2)
    = (Ok (), hp4);
  run_set_size_kept :
    kept (copy_ref hp0) keep
         (copy_provenance_store hda (copy_ref hp0) hp2) hp4;
  run_session_add : session_add (copy_ref hp0) hp4 = (Ok (), hp5);
  run_session_add_kept : hdas hp5 = hdas hp4;
  run_flush : session_flush hp5 = (Ok (), hp6);
  run_flush_kept : hdas hp6 = hdas hp5;
  run_set_peek :
    if Datatype.copy_safe_peek (HDA.datatype h)
    then hp8 = copy_metadata_store h (copy_ref hp0) hp6
    else set_peek (copy_ref hp0) (copy_metadata_store h (copy_ref hp0) hp6)
         = (Ok (), hp8);
  run_set_peek_kept :
    kept (copy_ref hp0) keep_peek
         (copy_metadata_store h (copy_ref hp0) hp6) hp8;
  run_last_flush : session_flush hp8 = (Ok (), hp9);
  run_last_flush_kept : hdas hp9 = hdas hp8
}.

End CopyRuns.

(** The table maps [key] to a serializer that returns [v] whatever it is
    called with, and writes nothing. *)
Definition constant_serializer (serializers : gmap string Serializer)
    (key : string) (v : Value) : Prop :=
  ∃ ser, serializers !! key = Some ser ∧
         ∀ trans item k w, ser trans item k w = (Ok v, w).

(** The events [create] adds to the log, given the keyword arguments it
    hands to the parent's [create] and the HDA that call returned. *)
Definition create_events (trans : Trans.t) (history dataset : option ref)
    (flush : bool) (kwargs' : gmap string Value) (hda : ref) : list Event :=
  [EvSuperCreate trans flush history dataset kwargs']
  ++ match history with
     | Some hist => [EvAddDataset hist hda]
     | None => []
     end
  ++ [EvSessionAdd hda]
  ++ (if flush then [EvSessionFlush] else []).

(** ** A small application to run the manager in *)
Module Reference.

Definition blank : HDA.t :=
  HDA.mk None None None None None None None None true false VNone None None
    None VNone "new" None (Datatype.mk false true) "" 0.

(** No administrators; the anonymous user is the absent one ([None]); the
    inherited access check grants nothing; a history takes a dataset by
    pointing it at itself; the peek is recomputed from the data. *)
Definition app : App := {|
  is_admin := λ _ _, false;
  is_anonymous := λ user, bool_decide (user = None);
  super_is_accessible := λ _ _ _ h, (Ok false, h);
  super_create := λ _ _ history dataset _ h,
    let r := fresh (dom (hdas h)) in
    (Ok r, set_hdas <[r := HDA.mk None None None None None None None dataset
                             true false VNone None None None VNone "new" None
                             (Datatype.mk false true) "" 0]> h);
  super_purge := λ _ hda _ h, (Ok (), set_hdas (alter (HDA.with_state "discarded") hda) h);
  add_dataset := λ hist hda h,
    (Ok (), set_hdas (alter (HDA.with_history (Some hist)) hda) h);
  set_size := λ hda h, (Ok (), set_hdas (alter (HDA.with_total_size 42) hda) h);
  set_peek := λ hda h,
    (Ok (), set_hdas (alter (HDA.with_peek (Some "recomputed peek")) hda) h);
  quota_amount := λ hda _ h,
    (Ok (default 0 (HDA.total_size <$> hdas h !! hda)), h);
  new_hda := blank;
  session_add := λ r h, (Ok (), set_session_new (λ l, (l ++ [r])%list) h);
  session_flush := λ h, (Ok (), set_session_new (λ _, []) h);
  external_serializer := λ _ _ _ _ h, (Ok VNone, h);
  Dataset_states_UPLOAD := "upload";
  Dataset_states_RESUBMITTED := "resubmitted";
  Job_states_ERROR := "error";
  Job_states_OK := "ok";
  conversion_messages_NO_DATA := "no data";
  conversion_messages_ERROR := "error";
  conversion_messages_PENDING := "pending"
|}.

(** A text dataset in the history of user 1, with a file of five bytes. *)
Definition hda_text : HDA.t :=
  HDA.mk (Some "reads") (Some "uploaded") (Some "5 bytes") (Some "ACGTA")
    (Some "1.0") (Some "txt") (Some "hg19") (Some 7%nat) true false VNone
    (Some 1) (Some 100%nat) None (VStr "columns=1") "ok" None
    (Datatype.mk true true) "/data/000/dataset_7.dat" 5.

(** A dataset whose datatype's peek may not be copied, in the history of
    an anonymous session, still uploading. *)
Definition hda_maf : HDA.t :=
  HDA.mk (Some "alignment") None None (Some "peek of 11") None (Some "maf")
    None (Some 8%nat) true false VNone (Some 1) (Some 101%nat) None VNone
    "upload" None (Datatype.mk false false) "/data/000/dataset_8.dat" 9.

Definition heap0 : Heap := {|
  users := {[ 1%nat := User.mk 1000 ]};
  histories := {[ 100%nat := History.mk (Some 1%nat);
                  101%nat := History.mk None;
                  102%nat := History.mk None ]};
  hdas := {[ 10%nat := hda_text; 11%nat := hda_maf ]};
  session_new := [];
  files := {[ "/data/000/dataset_7.dat" :=
                [Byte.x41; Byte.x43; Byte.x47; Byte.x54; Byte.x41] ]}
|}.

Definition world0 : World := mkWorld heap0 [].

(** User 1 in their history; an anonymous session whose current history
    is 102. *)
Definition trans_user : Trans.t := Trans.mk (Some 1%nat) (Some 100%nat).
Definition trans_anon : Trans.t := Trans.mk None (Some 102%nat).

End Reference.

(** ** Display applications and their links, as the serializer lists them *)

Module DisplayLink.
(** A link of a display application: its [name], its [url] dictionary and
    what [get_display_url( hda, trans )] returns. *)
Record t : Type := mk {
  name : string;
  url : gmap string string;
  get_display_url : ref → Trans.t → string
}.
End DisplayLink.

Module DisplayApplication.
(** [links] holds the values of the application's link dictionary, in the
    order [itervalues] yields them. *)
Record t : Type := mk { name : string; links : list DisplayLink.t }.
End DisplayApplication.

Module LinkDict.
(** The dictionary [{'target': .., 'href': .., 'text': ..}]. *)
Record t : Type := mk { target : string; href : string; text : string }.
End LinkDict.

Module AppDict.
(** [dict( label=.., links=.. )] *)
Record t : Type := mk { label : string; links : list LinkDict.t }.
End AppDict.

(** What the display serializers ask of the HDA, its datatype, the
    configuration and [gettext]. *)
Class Display : Type := {
  gettext : string → string;
  (** the values of [hda.get_display_applications( trans )], in order *)
  get_display_applications : ref → Trans.t → list DisplayApplication.t;
  enable_old_display_applications : bool;
  (** [hda.datatype.get_display_types()] *)
  get_display_types : ref → list string;
  (** [hda.datatype.get_display_links( hda, display_app, app, base )]:
      the target frame and the (name, link) pairs *)
  get_display_links : ref → string → Trans.t → string * list (string * string);
  get_display_label : ref → string → string
}.

Module HDASerializerLinks.
Section Links.
Context `{Display}.

(** The inner loop of [serialize_display_apps]: one dictionary appended per
    link. *)
Definition display_app_links (trans : Trans.t) (hda : ref)
    (links : list DisplayLink.t) : list LinkDict.t :=
  foldl (λ app_links link_app,
           app_links ++
           [LinkDict.mk
              (default "_blank" (DisplayLink.url link_app !! "target_frame"))
              (DisplayLink.get_display_url link_app hda trans)
              (gettext (DisplayLink.name link_app))])%list
        [] links.

(** [serialize_display_apps]: "Return dictionary containing new-style
    display app urls." *)
Definition serialize_display_apps (trans : Trans.t) (hda : ref) (key : string)
    : list AppDict.t :=
  foldl (λ display_apps display_app,
           let app_links :=
             display_app_links trans hda (DisplayApplication.links display_app) in
           if app_links is [] then display_apps
           else (display_apps ++
                 [AppDict.mk (DisplayApplication.name display_app) app_links])%list)
        [] (get_display_applications hda trans).

(** The inner loop of [serialize_old_display_applications]. *)
Definition old_display_links (target_frame : string)
    (display_links : list (string * string)) : list LinkDict.t :=
  foldl (λ app_links '(display_name, display_link),
           app_links ++
           [LinkDict.mk target_frame display_link (gettext display_name)])%list
        [] display_links.

(** [serialize_old_display_applications]: "Return dictionary containing
    old-style display app urls." *)
Definition serialize_old_display_applications (trans : Trans.t) (hda : ref)
    (key : string) : list AppDict.t :=
  let display_apps := [] in
  if negb enable_old_display_applications then display_apps
  else
    foldl (λ display_apps display_app,
             let '(target_frame, display_links) :=
               get_display_links hda display_app trans in
             if bool_decide (0 < length display_links)%nat
             then
               let display_label := get_display_label hda display_app in
               let app_links := old_display_links target_frame display_links in
               if app_links is [] then display_apps
               else (display_apps ++ [AppDict.mk display_label app_links])%list
             else display_apps)
          display_apps (get_display_types hda).

End Links.
End HDASerializerLinks.

(** ** Further definitions for the properties below *)

(** The keys of the dictionary literal in [add_serializers], in order. *)
Definition serializer_keys : list string :=
  ["model_class"; "history_content_type"; "hda_ldda"; "type_id";
   "history_id"; "misc_info"; "misc_blurb"; "file_ext"; "file_path";
   "resubmitted"; "display_apps"; "display_types"; "visualizations"; "url";
   "urls"; "download_url"; "parent_id"; "accessible"; "api_type"; "type"].

(** The keys of the dictionary literal in [add_deserializers]. *)
Definition deserializer_keys : list string :=
  ["visible"; "genome_build"; "misc_info"].

(** [self.deserializable_keyset.update( self.deserializers.keys() )], the
    last statement of [add_deserializers]; [deserializers] is the table as
    the parent class and the mixins have filled it. *)
Definition update_deserializable_keyset (keyset : gset string)
    (deserializers : gmap string Deserializer) : gset string :=
  keyset ∪ dom (HDADeserializer.add_deserializers deserializers).

(** The dictionaries the display serializers build, by link and by
    application, for stating what the loops collect. *)
Section DisplayEntries.
Context `{Display}.

(** The dictionary one link of a display application contributes. *)
Definition link_dict (trans : Trans.t) (hda : ref) (link_app : DisplayLink.t)
    : LinkDict.t :=
  LinkDict.mk (default "_blank" (DisplayLink.url link_app !! "target_frame"))
              (DisplayLink.get_display_url link_app hda trans)
              (gettext (DisplayLink.name link_app)).

(** The entry one display application contributes, if any. *)
Definition app_entry (trans : Trans.t) (hda : ref)
    (display_app : DisplayApplication.t) : option AppDict.t :=
  match DisplayApplication.links display_app with
  | [] => None
  | links =>
      Some (AppDict.mk (DisplayApplication.name display_app)
                       (link_dict trans hda <$> links))
  end.

(** The dictionary one (name, link) pair of an old-style display type
    contributes. *)
Definition old_link_dict (target_frame : string)
    (display_link : string * string) : LinkDict.t :=
  LinkDict.mk target_frame display_link.2 (gettext display_link.1).

End DisplayEntries.

(** Display data to run the serializers on: one application with two links,
    one without links, one with a single link. *)
Module ReferenceDisplay.

Definition ucsc_main : DisplayLink.t :=
  DisplayLink.mk "main" {[ "target_frame" := "galaxy_main" ]}
    (λ hda _, "/display/ucsc/main").
Definition ucsc_test : DisplayLink.t :=
  DisplayLink.mk "test" ∅ (λ hda _, "/display/ucsc/test").
Definition igv_local : DisplayLink.t :=
  DisplayLink.mk "local" ∅ (λ hda _, "/display/igv/local").

Definition display : Display := {|
  gettext := λ s, s;
  get_display_applications := λ _ _,
    [DisplayApplication.mk "UCSC" [ucsc_main; ucsc_test];
     DisplayApplication.mk "Ensembl" [];
     DisplayApplication.mk "IGV" [igv_local]];
  enable_old_display_applications := true;
  get_display_types := λ _, ["ucsc"; "gbrowse"];
  get_display_links := λ _ display_app _,
    if String.eqb display_app "ucsc"
    then ("_blank", [("main", "/old/ucsc/main"); ("test", "/old/ucsc/test")])
    else ("_blank", []);
  get_display_label := λ _ display_app, display_app
|}.

End ReferenceDisplay.

(** Variations of the reference application. *)
Module ReferenceVariants.

(** User 2 is an administrator, and the inherited access check grants
    access to everybody. *)
Definition admin_app : App := {|
  is_admin := λ _ user, bool_decide (user = Some 2%nat);
  is_anonymous := @is_anonymous Reference.app;
  super_is_accessible := λ _ _ _ h, (Ok true, h);
  super_create := @super_create Reference.app;
  super_purge := @super_purge Reference.app;
  add_dataset := @add_dataset Reference.app;
  set_size := @set_size Reference.app;
  set_peek := @set_peek Reference.app;
  quota_amount := @quota_amount Reference.app;
  new_hda := @new_hda Reference.app;
  session_add := @session_add Reference.app;
  session_flush := @session_flush Reference.app;
  external_serializer := @external_serializer Reference.app;
  Dataset_states_UPLOAD := "upload";
  Dataset_states_RESUBMITTED := "resubmitted";
  Job_states_ERROR := "error";
  Job_states_OK := "ok";
  conversion_messages_NO_DATA := "no data";
  conversion_messages_ERROR := "error";
  conversion_messages_PENDING := "pending"
|}.

(** The inherited purge refuses an HDA that is still uploading, and no
    history takes a dataset nor is any quota amount computed. *)
Definition failing_app : App := {|
  is_admin := @is_admin Reference.app;
  is_anonymous := @is_anonymous Reference.app;
  super_is_accessible := @super_is_accessible Reference.app;
  super_create := @super_create Reference.app;
  super_purge := λ trans hda flush h,
    match hdas h !! hda with
    | Some o =>
        if String.eqb (HDA.state o) "upload"
        then (Raise (OtherError "purge not allowed"), h)
        else @super_purge Reference.app trans hda flush h
    | None => (Raise (Dangling hda), h)
    end;
  add_dataset := λ _ _ h, (Raise (OtherError "history is purged"), h);
  set_size := @set_size Reference.app;
  set_peek := @set_peek Reference.app;
  quota_amount := λ _ _ h, (Raise (OtherError "no quota source"), h);
  new_hda := @new_hda Reference.app;
  session_add := @session_add Reference.app;
  session_flush := @session_flush Reference.app;
  external_serializer := @external_serializer Reference.app;
  Dataset_states_UPLOAD := "upload";
  Dataset_states_RESUBMITTED := "resubmitted";
  Job_states_ERROR := "error";
  Job_states_OK := "ok";
  conversion_messages_NO_DATA := "no data";
  conversion_messages_ERROR := "error";
  conversion_messages_PENDING := "pending"
|}.

(** An HDA that belongs to no history, resubmitted, next to the reference
    store's objects. *)
Definition hda_orphan : HDA.t :=
  HDA.mk (Some "orphan") None (Some "1 line") None None (Some "tabular") None
    (Some 9%nat) true false VNone None None None VNone "queued"
    (Some "resubmitted") (Datatype.mk false true) "/data/000/dataset_9.dat" 0.

Definition heap1 : Heap :=
  set_hdas <[ 12%nat := hda_orphan ]> Reference.heap0.

Definition world1 : World := mkWorld heap1 [].

(** User 2 (not the owner of history 100), user 3, and an anonymous session
    that has no current history yet. *)
Definition trans_admin : Trans.t := Trans.mk (Some 2%nat) None.
Definition trans_other : Trans.t := Trans.mk (Some 3%nat) None.
Definition trans_fresh : Trans.t := Trans.mk None None.

End ReferenceVariants.

(** * Properties *)

(** Unfolding the monad's operations. *)
Ltac unfold_monad :=
  unfold mbind, M_bind, mret, M_ret, bind, ret, raise, call, emit,
    get_heap, modify_heap, get_hda, get_history, get_user, load in *.

Section OwnershipProperties.
Context `{App}.

(** Deciding ownership reads the store and writes nothing. *)
Lemma is_owner_pure trans hda user w r w' :
  HDAManager.is_owner trans hda user w = (r, w') → w' = w.
Proof.
  unfold HDAManager.is_owner. unfold_monad.
  destruct (hdas (heap w) !! hda) as [h|]; [|congruence].
  destruct (is_admin trans user); [congruence|].
  destruct (is_anonymous user && _); [congruence|].
  destruct (HDA.history h) as [hist|]; [|congruence].
  destruct (histories (heap w) !! hist); congruence.
Qed.

(** An administrator owns every HDA. *)
Lemma is_owner_admin trans hda user w h :
  hdas (heap w) !! hda = Some h →
  is_admin trans user = true →
  HDAManager.is_owner trans hda user w = (Ok true, w).
Proof.
  intros Hh Ha. unfold HDAManager.is_owner. unfold_monad.
  by rewrite Hh, Ha.
Qed.

(** A user who is neither an administrator nor anonymous owns the HDA exactly
    when they are the user of its history. *)
Lemma is_owner_regular trans hda user w h hist hi :
  hdas (heap w) !! hda = Some h →
  HDA.history h = Some hist →
  histories (heap w) !! hist = Some hi →
  is_admin trans user = false →
  is_anonymous user = false →
  HDAManager.is_owner trans hda user w
  = (Ok (bool_decide (History.user hi = user)), w).
Proof.
  intros Hh Hhist Hhi Ha Hanon. unfold HDAManager.is_owner. unfold_monad.
  rewrite Hh, Ha, Hanon, Hhist. simpl. by rewrite Hhi.
Qed.

(** An anonymous user owns the HDA when its history is the current one, and
    otherwise still when the history's user equals the user given. *)
Lemma is_owner_anonymous trans hda user w h hist hi :
  hdas (heap w) !! hda = Some h →
  HDA.history h = Some hist →
  histories (heap w) !! hist = Some hi →
  is_admin trans user = false →
  is_anonymous user = true →
  HDAManager.is_owner trans hda user w
  = (Ok (bool_decide (Some hist = Trans.get_history trans)
         || bool_decide (History.user hi = user)), w).
Proof.
  intros Hh Hhist Hhi Ha Hanon. unfold HDAManager.is_owner. unfold_monad.
  rewrite Hh, Ha, Hanon, Hhist. simpl.
  case_bool_decide; simpl; [done|].
  by rewrite Hhi.
Qed.

(** An HDA without a history has no owner to compare with. *)
Lemma is_owner_no_history trans hda user w h :
  hdas (heap w) !! hda = Some h →
  HDA.history h = None →
  is_admin trans user = false →
  is_anonymous user = false ∨ Trans.get_history trans ≠ None →
  HDAManager.is_owner trans hda user w = (Raise (AttributeError "user"), w).
Proof.
  intros Hh Hhist Ha Hanon. unfold HDAManager.is_owner. unfold_monad.
  rewrite Hh, Ha, Hhist.
  destruct Hanon as [-> | Hcur]; [done|].
  destruct (is_anonymous user); [|done]. simpl.
  case_bool_decide; [congruence | done].
Qed.

(** C4. Owner implies accessible: whatever [is_owner] answers, it answers
    without writing; when it answers [True], [is_accessible] returns [True]
    at once; when it answers [False], [is_accessible] is the call of the
    inherited check and returns what that returns; and the inherited check
    is called in no other case (an exception of [is_owner] propagates). *)
Theorem is_accessible_owner_or_inherited trans hda user w r w' :
  HDAManager.is_owner trans hda user w = (r, w') →
  w' = w ∧
  HDAManager.is_accessible trans hda user w =
    match r with
    | Ok true => (Ok true, w)
    | Ok false =>
        let (res, h') := super_is_accessible trans hda user (heap w) in
        (res, mkWorld h' (log w ++ [EvSuperIsAccessible trans hda user]))
    | Raise e => (Raise e, w)
    end.
Proof.
  intros Hown. pose proof (is_owner_pure _ _ _ _ _ _ Hown) as ->.
  split; [done|].
  unfold HDAManager.is_accessible. unfold_monad. rewrite Hown.
  destruct r as [[|]|e]; reflexivity.
Qed.

End OwnershipProperties.

(** C1. Ownership of an anonymous user: in the reference application the
    anonymous user ([None]) is no administrator, HDA 11 lies in history 101,
    which belongs to nobody and is not the session's current history (102);
    [is_owner] nevertheless answers [True], through the final comparison
    [history.user == user]. *)
Theorem is_owner_anonymous_foreign_history :
  @is_anonymous Reference.app None = true ∧
  @is_admin Reference.app Reference.trans_anon None = false ∧
  hdas Reference.heap0 !! 11%nat = Some Reference.hda_maf ∧
  HDA.history Reference.hda_maf ≠ Trans.get_history Reference.trans_anon ∧
  @HDAManager.is_owner Reference.app Reference.trans_anon 11%nat None
    Reference.world0 = (Ok true, Reference.world0).
Proof. repeat split; try reflexivity. discriminate. Qed.

Lemma is_accessible_owner_or_inherited_witness :
  Reference.world0 = Reference.world0 ∧
  @HDAManager.is_accessible Reference.app Reference.trans_user 10%nat
    (Some 1%nat) Reference.world0 = (Ok true, Reference.world0).
Proof.
  apply (@is_accessible_owner_or_inherited Reference.app Reference.trans_user
           10%nat (Some 1%nat) Reference.world0 (Ok true) Reference.world0).
  reflexivity.
Defined.

Section StateProperties.
Context `{App}.

(** C9. [error_if_uploading] raises [Conflict] if and only if the HDA's state
    is the upload state, otherwise returns the very HDA it was given, and in
    both cases leaves the store (every field of every object) as it was. *)
Theorem error_if_uploading_iff trans hda h w :
  hdas (heap w) !! hda = Some h →
  snd (HDAManager.error_if_uploading trans hda w) = w ∧
  ((∃ msg, fst (HDAManager.error_if_uploading trans hda w) = Raise (Conflict msg))
     ↔ HDA.state h = Dataset_states_UPLOAD) ∧
  (HDA.state h ≠ Dataset_states_UPLOAD →
     fst (HDAManager.error_if_uploading trans hda w) = Ok hda).
Proof.
  intros Hh. unfold HDAManager.error_if_uploading. unfold_monad.
  rewrite Hh. case_bool_decide as Hst; simpl.
  - split; [done|]. split; [|done]. split; eauto.
  - split; [done|]. split; [|done].
    split; [intros [msg Hm]; discriminate | done].
Qed.

(** C10. [data_conversion_status] is a case analysis with four outcomes:
    the NO_DATA message for no HDA; for an HDA, the ERROR message in the
    error state, the PENDING message in a state that is neither error nor
    ok, and [None] in the ok state.  The store is never written.  The job
    states ERROR and OK are assumed to be different constants. *)
Theorem data_conversion_status_cases trans w :
  Job_states_ERROR ≠ Job_states_OK →
  HDAManager.data_conversion_status trans None w
    = (Ok (VStr conversion_messages_NO_DATA), w) ∧
  ∀ hda h, hdas (heap w) !! hda = Some h →
    (HDA.state h = Job_states_ERROR →
       HDAManager.data_conversion_status trans (Some hda) w
       = (Ok (VStr conversion_messages_ERROR), w)) ∧
    (HDA.state h ≠ Job_states_ERROR → HDA.state h ≠ Job_states_OK →
       HDAManager.data_conversion_status trans (Some hda) w
       = (Ok (VStr conversion_messages_PENDING), w)) ∧
    (HDA.state h = Job_states_OK →
       HDAManager.data_conversion_status trans (Some hda) w = (Ok VNone, w)).
Proof.
  intros Hne. split; [reflexivity|].
  intros hda h Hh. unfold HDAManager.data_conversion_status. unfold_monad.
  rewrite Hh. repeat split.
  - intros ->. by rewrite bool_decide_eq_true_2.
  - intros He Ho. by rewrite !bool_decide_eq_false_2.
  - intros Ho. rewrite bool_decide_eq_false_2 by congruence.
    by rewrite bool_decide_eq_true_2.
Qed.

(** [text_data] answers [(False, None)] for an HDA whose datatype is not a
    text datatype. *)
Lemma text_data_not_text hda h preview w :
  hdas (heap w) !! hda = Some h →
  Datatype.is_Text (HDA.datatype h) = false →
  HDAManager.text_data hda preview w = (Ok (false, None), w).
Proof.
  intros Hh Ht. unfold HDAManager.text_data. unfold_monad.
  by rewrite Hh, Ht.
Qed.

(** [text_data] answers [(False, None)] when the HDA's file does not exist. *)
Lemma text_data_no_file hda h preview w :
  hdas (heap w) !! hda = Some h →
  files (heap w) !! HDA.file_name h = None →
  HDAManager.text_data hda preview w = (Ok (false, None), w).
Proof.
  intros Hh Hf. unfold HDAManager.text_data. unfold_monad.
  rewrite Hh. destruct (Datatype.is_Text _); simpl; [|done].
  by rewrite Hf.
Qed.

(** For a text HDA whose file exists, [text_data] reaches the read, whose
    argument [max_peek_size] is bound nowhere: a [NameError], whatever the
    file holds and whatever [preview] is. *)
Lemma text_data_existing_text_file hda h preview content w :
  hdas (heap w) !! hda = Some h →
  Datatype.is_Text (HDA.datatype h) = true →
  files (heap w) !! HDA.file_name h = Some content →
  HDAManager.text_data hda preview w
  = (Raise (NameError "max_peek_size"), w).
Proof.
  intros Hh Ht Hf. unfold HDAManager.text_data. unfold_monad.
  rewrite Hh, Ht. simpl. rewrite Hf.
  destruct preview; reflexivity.
Qed.

End StateProperties.

Lemma error_if_uploading_iff_witness :
  snd (@HDAManager.error_if_uploading Reference.app Reference.trans_anon
         11%nat Reference.world0) = Reference.world0 ∧
  ((∃ msg, fst (@HDAManager.error_if_uploading Reference.app
                  Reference.trans_anon 11%nat Reference.world0)
           = Raise (Conflict msg))
     ↔ HDA.state Reference.hda_maf = "upload") ∧
  (HDA.state Reference.hda_maf ≠ "upload" →
     fst (@HDAManager.error_if_uploading Reference.app Reference.trans_anon
            11%nat Reference.world0) = Ok 11%nat).
Proof.
  apply (@error_if_uploading_iff Reference.app Reference.trans_anon 11%nat
           Reference.hda_maf Reference.world0).
  reflexivity.
Defined.

Lemma data_conversion_status_cases_witness :
  @HDAManager.data_conversion_status Reference.app Reference.trans_user
    (Some 10%nat) Reference.world0 = (Ok VNone, Reference.world0).
Proof.
  destruct (@data_conversion_status_cases Reference.app Reference.trans_user
              Reference.world0) as [_ Hcases]; [discriminate|].
  destruct (Hcases 10%nat Reference.hda_text) as (_ & _ & Hok);
    [reflexivity|].
  apply Hok. reflexivity.
Defined.

(** C6. [text_data] on a text dataset whose file exists: HDA 10 of the
    reference store is a text dataset with a five-byte file, and the call
    ends in a [NameError] for [max_peek_size] instead of returning the pair
    [(False, data)]. *)
Theorem text_data_raises_NameError :
  Datatype.is_Text (HDA.datatype Reference.hda_text) = true ∧
  is_Some (files Reference.heap0 !! HDA.file_name Reference.hda_text) ∧
  @HDAManager.text_data 10%nat true Reference.world0
    = (Raise (NameError "max_peek_size"), Reference.world0) ∧
  @HDAManager.text_data 10%nat false Reference.world0
    = (Raise (NameError "max_peek_size"), Reference.world0).
Proof.
  split; [reflexivity|]. split; [by eexists|].
  split; by eapply text_data_existing_text_file.
Qed.

Section PurgeAndCreate.
Context `{App}.

(** C2. Quota accounting on purge.  Let the inherited purge return, leaving
    the users' disk usage alone.  With no [trans.user], [purge] returns the
    HDA it was given and every user's [total_disk_usage] is as before.  With
    [trans.user] set and [hda.quota_amount( trans.user )] returning [amount],
    [purge] returns the HDA it was given and that user's
    [total_disk_usage] is the previous one minus [amount]; the other users
    are as [quota_amount] left them. *)
Theorem purge_decreases_disk_usage trans hda flush w h1 :
  super_purge trans hda flush (heap w) = (Ok (), h1) →
  users h1 = users (heap w) →
  (Trans.user trans = None →
     ∃ w', HDAManager.purge trans hda flush w = (Ok hda, w') ∧
           users (heap w') = users (heap w)) ∧
  (∀ u usr amount h2,
     Trans.user trans = Some u →
     users (heap w) !! u = Some usr →
     quota_amount hda u h1 = (Ok amount, h2) →
     ∃ w', HDAManager.purge trans hda flush w = (Ok hda, w') ∧
           users (heap w') !! u
             = Some (User.mk (User.total_disk_usage usr - amount)) ∧
           ∀ u', u' ≠ u → users (heap w') !! u' = users h2 !! u').
Proof.
  intros Hsuper Husers. split.
  - intros Hnone. unfold HDAManager.purge. unfold_monad.
    rewrite Hsuper, Hnone. simpl. eexists. split; [reflexivity|]. done.
  - intros u usr amount h2 Hu Husr Hq.
    unfold HDAManager.purge, HDAManager.set_total_disk_usage. unfold_monad.
    rewrite Hsuper, Hu. simpl. rewrite Husers, Husr. simpl. rewrite Hq. simpl.
    eexists. split; [reflexivity|]. simpl. split.
    + apply lookup_insert_eq.
    + intros u' Hne. by apply lookup_insert_ne.
Qed.

(** C8 (as amended). [create] wires the new HDA into its history and
    dataset.  Take a call whose keywords hold no [sa_session] of the
    caller's own and in which the collaborators that are called return: the
    parent's [create] returns [hda] and leaves the store [h1];
    [history.add_dataset], called if and only if a history is given, leaves
    [h2]; the session's [add] leaves [h3]; the session's [flush], called if
    and only if [flush] is true, leaves [h4].  Then [create] returns that
    very [hda], the store is [h4], and the calls it made are, in this order
    and with nothing else: the parent's [create], with [create_dataset=True]
    among the keywords when no dataset was given; [add_dataset] on the given
    history with [hda]; the session's [add] with [hda]; the session's
    [flush]. *)
Theorem create_wires_hda trans history dataset flush kwargs w hda h1 h2 h3 h4 :
  let kwargs' := if dataset is None
                 then <["create_dataset" := VBool true]> kwargs else kwargs in
  kwargs !! "sa_session" = None →
  super_create trans flush history dataset kwargs' (heap w) = (Ok hda, h1) →
  match history with
  | Some hist => add_dataset hist hda h1 = (Ok (), h2)
  | None => h2 = h1
  end →
  session_add hda h2 = (Ok (), h3) →
  (if flush then session_flush h3 = (Ok (), h4) else h4 = h3) →
  HDAManager.create trans history dataset flush kwargs w
  = (Ok hda,
     mkWorld h4
       (log w ++ create_events trans history dataset flush kwargs' hda)) ∧
  (dataset = None → kwargs' !! "create_dataset" = Some (VBool true)) ∧
  (dataset ≠ None → kwargs' = kwargs).
Proof.
  intros kwargs' Hsa Hc Ha Hs Hf.
  assert (Hsa' : kwargs' !! "sa_session" = None).
  { subst kwargs'. destruct dataset; [done|]. by rewrite lookup_insert_ne. }
  split; [|split].
  - unfold HDAManager.create. fold kwargs'.
    rewrite bool_decide_eq_false_2
      by (rewrite Hsa'; intros [? ?]; discriminate).
    unfold_monad. rewrite Hc. simpl. unfold create_events.
    destruct history as [hist|]; simpl.
    + rewrite Ha. simpl. rewrite Hs. simpl.
      destruct flush; simpl; [rewrite Hf | subst h4]; simpl;
        rewrite <- ?app_assoc; reflexivity.
    + subst h2. rewrite Hs. simpl.
      destruct flush; simpl; [rewrite Hf | subst h4]; simpl;
        rewrite <- ?app_assoc; reflexivity.
  - intros ->. subst kwargs'. apply lookup_insert_eq.
  - subst kwargs'. by destruct dataset.
Qed.

End PurgeAndCreate.

Lemma purge_decreases_disk_usage_witness :
  ∃ w', @HDAManager.purge Reference.app Reference.trans_user 10%nat true
          Reference.world0 = (Ok 10%nat, w') ∧
        users (heap w') !! 1%nat = Some (User.mk (1000 - 5)) ∧
        ∀ u', u' ≠ 1%nat →
              users (heap w') !! u' = users Reference.heap0 !! u'.
Proof.
  destruct (@purge_decreases_disk_usage Reference.app Reference.trans_user
              10%nat true Reference.world0
              (set_hdas (alter (HDA.with_state "discarded") 10%nat)
                 Reference.heap0)) as [_ Hsome]; [reflexivity | reflexivity |].
  apply (Hsome 1%nat (User.mk 1000) 5
           (set_hdas (alter (HDA.with_state "discarded") 10%nat)
              Reference.heap0)); reflexivity.
Defined.

(** C8, as stated for every call, fails on a call that passes its own
    [sa_session] keyword: the parent's [create] is called with that keyword
    twice, a [TypeError]; no HDA is returned, nothing is added to a history
    or to the session and nothing is flushed. *)
Lemma create_own_sa_session_wires_nothing :
  @HDAManager.create Reference.app Reference.trans_user (Some 100%nat) None
    true {[ "sa_session" := VObj 0%nat ]} Reference.world0
  = (Raise (TypeError "got multiple values for keyword argument 'sa_session'"),
     Reference.world0) ∧
  log Reference.world0 = [] ∧
  session_new (heap Reference.world0) = [].
Proof. repeat split. Qed.

Lemma create_wires_hda_witness :
  ∃ hda h4,
    @HDAManager.create Reference.app Reference.trans_user (Some 100%nat) None
      true ∅ Reference.world0
    = (Ok hda,
       mkWorld h4
         (create_events Reference.trans_user (Some 100%nat) None true
            (<["create_dataset" := VBool true]> ∅) hda)) ∧
    (HDA.history <$> hdas h4 !! hda) = Some (Some 100%nat) ∧
    session_new h4 = [].
Proof.
  pose (hda := fresh (dom (hdas Reference.heap0))).
  pose (k := <["create_dataset" := VBool true]> (∅ : gmap string Value)).
  pose (h1 := (@super_create Reference.app Reference.trans_user true
                 (Some 100%nat) None k Reference.heap0).2).
  pose (h2 := (@add_dataset Reference.app 100%nat hda h1).2).
  pose (h3 := (@session_add Reference.app hda h2).2).
  pose (h4 := (@session_flush Reference.app h3).2).
  exists hda, h4.
  destruct (@create_wires_hda Reference.app Reference.trans_user
              (Some 100%nat) None true ∅ Reference.world0 hda h1 h2 h3 h4)
    as [Hrun _]; try reflexivity.
  split; [exact Hrun|]. split; reflexivity.
Defined.

Section SerializerProperties.
Context `{App}.

(** C7. Constant serialized fields: whatever the inherited table holds, the
    table [add_serializers] leaves maps 'model_class', 'history_content_type',
    'hda_ldda', 'accessible', 'api_type' and 'type' to serializers that
    return 'HistoryDatasetAssociation', 'dataset', 'hda', True, 'file' and
    'file', for every transaction, HDA, key and store, and write nothing. *)
Theorem constant_serialized_fields (base : gmap string Serializer) :
  let table := HDASerializer.add_serializers base in
  constant_serializer table "model_class" (VStr "HistoryDatasetAssociation") ∧
  constant_serializer table "history_content_type" (VStr "dataset") ∧
  constant_serializer table "hda_ldda" (VStr "hda") ∧
  constant_serializer table "accessible" (VBool true) ∧
  constant_serializer table "api_type" (VStr "file") ∧
  constant_serializer table "type" (VStr "file").
Proof.
  simpl. unfold constant_serializer, HDASerializer.add_serializers, update.
  repeat split; eexists;
    (split; [apply lookup_union_Some_l; reflexivity | reflexivity]).
Qed.

End SerializerProperties.

(** Writing an attribute of an object of the store. *)
Lemma set_hda_attr_run r attr f o w :
  hdas (heap w) !! r = Some o →
  set_hda_attr r attr f w
  = (Ok (), mkWorld (set_hdas (alter f r) (heap w))
                    (log w ++ [EvSetAttr r attr])).
Proof.
  intros Hr. unfold set_hda_attr. unfold_monad. by rewrite Hr.
Qed.

Lemma lookup_set_hdas_alter f r o hp :
  hdas hp !! r = Some o →
  hdas (set_hdas (alter f r) hp) !! r = Some (f o).
Proof. intros Hr. simpl. by rewrite lookup_alter_eq, Hr. Qed.

Lemma lookup_set_hdas_alter_ne f r x hp :
  x ≠ r → hdas (set_hdas (alter f r) hp) !! x = hdas hp !! x.
Proof. intros Hne. simpl. by rewrite lookup_alter_ne. Qed.

Section RemappedKeys.
Context `{App}.
Variables (base : gmap string Serializer) (dbase : gmap string Deserializer).


(** Deserializing 'genome_build' writes the text to the item's [dbkey]. *)
Lemma deserialize_genome_build_key trans item o s w :
  hdas (heap w) !! item = Some o →
  ∃ w', HDADeserializer.apply_deserializer
          (HDADeserializer.add_deserializers dbase) trans item "genome_build"
          (VStr s) w = (Ok (VStr s), w') ∧
        hdas (heap w') !! item = Some (HDA.with_dbkey (Some s) o) ∧
        ∀ x, x ≠ item → hdas (heap w') !! x = hdas (heap w) !! x.
Proof.
  intros Ho.
  unfold HDADeserializer.apply_deserializer,
    HDADeserializer.add_deserializers, update.
  erewrite lookup_union_Some_l by reflexivity.
  unfold HDADeserializer.deserialize_genome_build.
  simpl; unfold mbind, M_bind, bind.
  rewrite (set_hda_attr_run _ _ _ _ _ Ho).
  eexists; split; [reflexivity|]; split;
    [by apply lookup_set_hdas_alter
    | by intros; apply lookup_set_hdas_alter_ne].
Qed.

(** Serializing 'misc_info' reads the item's [info]. *)
Lemma serialize_misc_info trans item o w :
  hdas (heap w) !! item = Some o →
  HDASerializer.apply_serializer (HDASerializer.add_serializers base)
    trans item "misc_info" w = (Ok (text_value (HDA.info o)), w).
Proof.
  intros Ho.
  unfold HDASerializer.apply_serializer, HDASerializer.add_serializers, update.
  erewrite lookup_union_Some_l by reflexivity.
  unfold HDASerializer._remap_from. unfold_monad. simpl. by rewrite Ho.
Qed.

(** 'genome_build' is not a key [add_serializers] sets: the inherited entry
    stays. *)
Lemma serialize_genome_build_inherited :
  HDASerializer.add_serializers base !! "genome_build" = base !! "genome_build".
Proof.
  unfold HDASerializer.add_serializers, update.
  apply lookup_union_r. reflexivity.
Qed.


End RemappedKeys.


(** ** Copying *)

Lemma bind_ok {A B} (m : M A) (k : A → M B) w a w' :
  m w = (Ok a, w') → (m ≫= k) w = k a w'.
Proof. intros Hm. unfold mbind, M_bind, bind. by rewrite Hm. Qed.

Lemma call_returns {A} ev (c : Collab A) w a hp' :
  c (heap w) = (Ok a, hp') →
  call ev c w = (Ok a, mkWorld hp' (log w ++ [ev])).
Proof. intros Hc. unfold call. by rewrite Hc. Qed.

Lemma copy_ref_fresh hp0 : hdas hp0 !! copy_ref hp0 = None.
Proof. unfold copy_ref. apply not_elem_of_dom. apply is_fresh. Qed.

Section CopyInvariant.
Variables (hda : ref) (h : HDA.t) (c : ref).
Hypothesis c_new : c ≠ hda.

Lemma copy_inv_read P w :
  copy_inv hda h c P (heap w) → get_hda hda w = (Ok h, w).
Proof. intros [Hs _]. unfold get_hda, load. by rewrite Hs. Qed.

Lemma copy_inv_kept keep (P Q : HDA.t → Prop) hp hp' :
  kept c keep hp hp' →
  (∀ o o', P o → keep o o' → Q o') →
  copy_inv hda h c P hp → copy_inv hda h c Q hp'.
Proof.
  intros [Hothers Hobj] HPQ (Hs & o & Hc & HP).
  destruct (Hobj o Hc) as (o' & Hc' & Hkeep). split.
  - rewrite Hothers; [done | congruence].
  - exists o'. eauto.
Qed.

Lemma copy_inv_same_hdas (P : HDA.t → Prop) hp hp' :
  hdas hp' = hdas hp → copy_inv hda h c P hp → copy_inv hda h c P hp'.
Proof. intros Heq. unfold copy_inv. by rewrite Heq. Qed.

Lemma copy_inv_alter f (P Q : HDA.t → Prop) hp :
  (∀ o, P o → Q (f o)) →
  copy_inv hda h c P hp → copy_inv hda h c Q (set_hdas (alter f c) hp).
Proof.
  intros HPQ (Hs & o & Hc & HP). split.
  - rewrite lookup_set_hdas_alter_ne; [done | congruence].
  - exists (f o). split; [by apply lookup_set_hdas_alter | auto].
Qed.

Lemma copy_inv_setattr attr f (P : HDA.t → Prop) w :
  copy_inv hda h c P (heap w) →
  set_hda_attr c attr f w
  = (Ok (), mkWorld (set_hdas (alter f c) (heap w))
                    (log w ++ [EvSetAttr c attr])).
Proof. intros (_ & o & Hc & _). by apply (set_hda_attr_run _ _ _ o). Qed.

End CopyInvariant.

Section CopyProperties.
Context `{App}.

(** What a run of [copy] returns and leaves, whatever the calls on the copy
    are allowed to change of it. *)
Lemma copy_run_exact keep keep_peek trans hda history kwargs h w
    hp2 hp4 hp5 hp6 hp8 hp9 :
  hdas (heap w) !! hda = Some h →
  CopyRun keep keep_peek hda h history kwargs (heap w) hp2 hp4 hp5 hp6 hp8 hp9 →
  HDAManager.copy trans hda history kwargs w
  = (Ok (copy_ref (heap w)),
     mkWorld hp9
       (log w ++ copy_events history
                   (Datatype.copy_safe_peek (HDA.datatype h))
                   (copy_ref (heap w)))).
Proof.
  intros Hsrc Run.
  set (c := copy_ref (heap w)).
  assert (Hne : c ≠ hda).
  { pose proof (copy_ref_fresh (heap w)). subst c. congruence. }
  set (T := λ _ : HDA.t, True).
  pose proof (run_add_dataset _ _ _ _ _ _ _ _ _ _ _ _ _ Run) as Radd.
  pose proof (run_set_size _ _ _ _ _ _ _ _ _ _ _ _ _ Run) as Rsize.
  pose proof (run_session_add _ _ _ _ _ _ _ _ _ _ _ _ _ Run) as Rsadd.
  pose proof (run_flush _ _ _ _ _ _ _ _ _ _ _ _ _ Run) as Rflush.
  pose proof (run_set_peek _ _ _ _ _ _ _ _ _ _ _ _ _ Run) as Rpeek.
  pose proof (run_last_flush _ _ _ _ _ _ _ _ _ _ _ _ _ Run) as Rlast.
  fold c in Radd, Rsize, Rsadd, Rpeek.
  (* the object stays in the store and the source stays as it was *)
  assert (I1 : copy_inv hda h c T (copy_constructed_store h kwargs (heap w))).
  { split; simpl.
    - by rewrite lookup_insert_ne.
    - exists (copy_constructed h kwargs). split; [apply lookup_insert_eq | done]. }
  assert (I2 : copy_inv hda h c T hp2).
  { by apply (copy_inv_kept hda h c Hne keep T T _ _
                (run_add_dataset_kept _ _ _ _ _ _ _ _ _ _ _ _ _ Run)). }
  assert (I3 : copy_inv hda h c T (copy_provenance_store hda c hp2)).
  { by apply (copy_inv_alter hda h c Hne _ T T). }
  assert (I4 : copy_inv hda h c T hp4).
  { by apply (copy_inv_kept hda h c Hne keep T T _ _
                (run_set_size_kept _ _ _ _ _ _ _ _ _ _ _ _ _ Run)). }
  assert (I6 : copy_inv hda h c T hp6).
  { apply (copy_inv_same_hdas hda h c T hp5);
      [exact (run_flush_kept _ _ _ _ _ _ _ _ _ _ _ _ _ Run)|].
    by apply (copy_inv_same_hdas hda h c T hp4);
      [exact (run_session_add_kept _ _ _ _ _ _ _ _ _ _ _ _ _ Run)|]. }
  assert (I7 : copy_inv hda h c T (copy_metadata_store h c hp6)).
  { by apply (copy_inv_alter hda h c Hne _ T T). }
  (* the run, statement by statement *)
  unfold HDAManager.copy.
  rewrite (bind_ok _ _ w h w) by (unfold get_hda, load; by rewrite Hsrc).
  set (w1 := mkWorld (copy_constructed_store h kwargs (heap w))
                     (log w ++ [EvNew c])).
  rewrite (bind_ok _ _ w c w1) by reflexivity.
  set (w2 := mkWorld hp2 (log w1 ++ match history with
                                    | Some hist => [EvAddDataset hist c]
                                    | None => []
                                    end)).
  assert (R2 : (match history with
                | Some hist => call (EvAddDataset hist c) (add_dataset hist c)
                | None => mret ()
                end) w1 = (Ok (), w2)).
  { subst w2. destruct history as [hist|].
    - by apply call_returns.
    - rewrite Radd, app_nil_r. reflexivity. }
  rewrite (bind_ok _ _ _ _ _ R2).
  rewrite (bind_ok _ _ _ _ _
             (copy_inv_setattr hda h c
                "copied_from_history_dataset_association" _ T w2 I2)).
  set (w3 := mkWorld (copy_provenance_store hda c hp2)
               (log w2 ++ [EvSetAttr c "copied_from_history_dataset_association"])).
  rewrite (bind_ok _ _ _ _ _
             (call_returns (EvSetSize c) (set_size c) w3 () hp4 Rsize)).
  set (w4 := mkWorld hp4 (log w3 ++ [EvSetSize c])).
  rewrite (bind_ok _ _ _ _ _
             (call_returns (EvSessionAdd c) (session_add c) w4 () hp5 Rsadd)).
  set (w5 := mkWorld hp5 (log w4 ++ [EvSessionAdd c])).
  rewrite (bind_ok _ _ _ _ _
             (call_returns EvSessionFlush session_flush w5 () hp6 Rflush)).
  set (w6 := mkWorld hp6 (log w5 ++ [EvSessionFlush])).
  rewrite (bind_ok _ _ w6 h w6 (copy_inv_read hda h c T w6 I6)).
  rewrite (bind_ok _ _ _ _ _ (copy_inv_setattr hda h c "metadata" _ T w6 I6)).
  set (w7 := mkWorld (set_hdas (alter (HDA.with_metadata (HDA.metadata h)) c)
                        (heap w6))
                     (log w6 ++ [EvSetAttr c "metadata"])).
  rewrite (bind_ok _ _ w7 h w7 (copy_inv_read hda h c T w7 I7)).
  set (w8 := mkWorld hp8
               (log w7 ++ if Datatype.copy_safe_peek (HDA.datatype h)
                          then [] else [EvSetPeek c])).
  assert (R8 : (if negb (Datatype.copy_safe_peek (HDA.datatype h))
                then call (EvSetPeek c) (set_peek c)
                else mret ()) w7 = (Ok (), w8)).
  { subst w8. destruct (Datatype.copy_safe_peek (HDA.datatype h)); simpl.
    - rewrite Rpeek, app_nil_r. reflexivity.
    - by apply call_returns. }
  rewrite (bind_ok _ _ _ _ _ R8).
  rewrite (bind_ok _ _ _ _ _
             (call_returns EvSessionFlush session_flush w8 () hp9 Rlast)).
  unfold mret, M_ret, ret. f_equal. f_equal.
  subst w8 w7 w6 w5 w4 w3 w2 w1. unfold copy_events. simpl.
  destruct history, (Datatype.copy_safe_peek (HDA.datatype h)); simpl;
    rewrite <- ?app_assoc; reflexivity.
Qed.


(** What holds of the copy along a run: [P0] once constructed, [P2] once its
    provenance is assigned, [P4] once its metadata is assigned, [P5] at the
    end; the source is as it was throughout. *)
Lemma copy_run_inv keep keep_peek (P0 P2 P4 P5 : HDA.t → Prop)
    hda history kwargs h hp0 hp2 hp4 hp5 hp6 hp8 hp9 :
  hdas hp0 !! hda = Some h →
  CopyRun keep keep_peek hda h history kwargs hp0 hp2 hp4 hp5 hp6 hp8 hp9 →
  P0 (copy_constructed h kwargs) →
  (∀ o o', P0 o → keep o o' → P0 o') →
  (∀ o, P0 o → P2 (HDA.with_copied_from (Some hda) o)) →
  (∀ o o', P2 o → keep o o' → P2 o') →
  (∀ o, P2 o → P4 (HDA.with_metadata (HDA.metadata h) o)) →
  (Datatype.copy_safe_peek (HDA.datatype h) = true → ∀ o, P4 o → P5 o) →
  (Datatype.copy_safe_peek (HDA.datatype h) = false →
     ∀ o o', P4 o → keep_peek o o' → P5 o') →
  copy_inv hda h (copy_ref hp0) P5 hp8 ∧ copy_inv hda h (copy_ref hp0) P5 hp9.
Proof.
  intros Hsrc Run H0 H00 H02 H22 H24 Hsafe Hunsafe.
  set (c := copy_ref hp0).
  assert (Hne : c ≠ hda).
  { pose proof (copy_ref_fresh hp0). subst c. congruence. }
  assert (I1 : copy_inv hda h c P0 (copy_constructed_store h kwargs hp0)).
  { split; simpl.
    - by rewrite lookup_insert_ne.
    - exists (copy_constructed h kwargs). split; [apply lookup_insert_eq | done]. }
  assert (I2 : copy_inv hda h c P0 hp2).
  { by apply (copy_inv_kept hda h c Hne keep P0 P0 _ _
                (run_add_dataset_kept _ _ _ _ _ _ _ _ _ _ _ _ _ Run)). }
  assert (I3 : copy_inv hda h c P2 (copy_provenance_store hda c hp2)).
  { by apply (copy_inv_alter hda h c Hne _ P0 P2). }
  assert (I4 : copy_inv hda h c P2 hp4).
  { by apply (copy_inv_kept hda h c Hne keep P2 P2 _ _
                (run_set_size_kept _ _ _ _ _ _ _ _ _ _ _ _ _ Run)). }
  assert (I6 : copy_inv hda h c P2 hp6).
  { apply (copy_inv_same_hdas hda h c P2 hp5);
      [exact (run_flush_kept _ _ _ _ _ _ _ _ _ _ _ _ _ Run)|].
    by apply (copy_inv_same_hdas hda h c P2 hp4);
      [exact (run_session_add_kept _ _ _ _ _ _ _ _ _ _ _ _ _ Run)|]. }
  assert (I7 : copy_inv hda h c P4 (copy_metadata_store h c hp6)).
  { by apply (copy_inv_alter hda h c Hne _ P2 P4). }
  assert (I8 : copy_inv hda h c P5 hp8).
  { pose proof (run_set_peek _ _ _ _ _ _ _ _ _ _ _ _ _ Run) as Rpeek.
    fold c in Rpeek.
    destruct (Datatype.copy_safe_peek (HDA.datatype h)) eqn:Hs.
    - subst hp8. destruct I7 as (Hs7 & o & Ho & HP). split; [done|].
      exists o. split; [done|]. by apply Hsafe.
    - apply (copy_inv_kept hda h c Hne keep_peek P4 P5 _ _
               (run_set_peek_kept _ _ _ _ _ _ _ _ _ _ _ _ _ Run));
        [by apply Hunsafe | done]. }
  split; [done|].
  by apply (copy_inv_same_hdas hda h c P5 hp8);
    [exact (run_last_flush_kept _ _ _ _ _ _ _ _ _ _ _ _ _ Run)|].
Qed.

(** C3 (as amended). Copy preserves content and records provenance.  Take a
    run of [copy] in which the collaborators that are called return
    ([add_dataset] when a history is given, [set_size], the session's [add]
    and its two flushes, [set_peek] when the peek is not safe to copy),
    [add_dataset] and [set_size] write none of the copied attributes, nor
    does [set_peek] but the peek, and none of them writes another HDA, nor
    does the session any.  Then [copy] returns a new object, not the source
    and not in the store before, and leaves the store [hp9] of the last
    flush; the copy's name, info, blurb, tool_version, extension, dbkey,
    visible and deleted equal the source's, it shares the source's dataset
    object, its [copied_from_history_dataset_association] is the source and
    its metadata is the source's, assigned after the session's first flush;
    its peek equals the source's when the source's datatype has
    [copy_safe_peek], and otherwise the copy is the very object [set_peek]
    left in its store [hp8], so that its peek is the one [set_peek]
    computed.  The source is left as it was. *)
Theorem copy_preserves_content trans hda history kwargs h w
    hp2 hp4 hp5 hp6 hp8 hp9 :
  hdas (heap w) !! hda = Some h →
  CopyRun same_copied same_copied_but_peek hda h history kwargs (heap w)
          hp2 hp4 hp5 hp6 hp8 hp9 →
  let c := copy_ref (heap w) in
  let safe := Datatype.copy_safe_peek (HDA.datatype h) in
  HDAManager.copy trans hda history kwargs w
  = (Ok c, mkWorld hp9 (log w ++ copy_events history safe c)) ∧
  hdas (heap w) !! c = None ∧ c ≠ hda ∧
  (∃ o, hdas hp9 !! c = Some o ∧
        same_content h o ∧
        HDA.copied_from_history_dataset_association o = Some hda ∧
        HDA.metadata o = HDA.metadata h ∧
        (safe = true → HDA.peek o = HDA.peek h) ∧
        (safe = false → hdas hp8 !! c = Some o)) ∧
  hdas hp9 !! hda = Some h.
Proof.
  intros Hsrc Run c safe.
  pose proof (copy_ref_fresh (heap w)) as Hfresh. fold c in Hfresh.
  split; [exact (copy_run_exact _ _ trans hda history kwargs h w _ _ _ _ _ _
                  Hsrc Run)|].
  split; [done|]. split; [congruence|].
  set (P0 := λ o, same_content h o ∧ HDA.peek o = HDA.peek h).
  set (P2 := λ o, P0 o ∧
                  HDA.copied_from_history_dataset_association o = Some hda).
  set (P4 := λ o, P2 o ∧ HDA.metadata o = HDA.metadata h).
  set (P5 := λ o, same_content h o ∧
                  HDA.copied_from_history_dataset_association o = Some hda ∧
                  HDA.metadata o = HDA.metadata h ∧
                  (safe = true → HDA.peek o = HDA.peek h)).
  destruct (copy_run_inv same_copied same_copied_but_peek P0 P2 P4 P5
              hda history kwargs h (heap w) hp2 hp4 hp5 hp6 hp8 hp9 Hsrc Run)
    as [I8 I9].
  - by repeat split.
  - intros o o' [Hc Hp] [[Hk _] Hkp]. subst P0. simpl.
    unfold same_content in *. rewrite Hkp. intuition congruence.
  - by intros o [? ?].
  - intros o o' [[Hc Hp] Hf] [[Hk [Hkf _]] Hkp]. subst P2 P0. simpl.
    unfold same_content in *. rewrite Hkp, Hkf. intuition congruence.
  - by intros o [[? ?] ?].
  - intros _ o [[[Hc Hp] Hf] Hm]. subst P5. simpl. by auto.
  - intros Hs o o' [[[Hc Hp] Hf] Hm] [Hk [Hkf Hkm]]. subst P5. simpl.
    unfold same_content in *. rewrite Hkf, Hkm.
    split; [intuition congruence|]. split; [done|]. split; [done|].
    subst safe. rewrite Hs. intros; discriminate.
  - destruct I9 as (Hs9 & o & Ho9 & Hc9 & Hf9 & Hm9 & Hp9).
    split; [|done]. exists o. repeat (split; [done|]).
    intros _. by rewrite <- (run_last_flush_kept _ _ _ _ _ _ _ _ _ _ _ _ _ Run).
Qed.

End CopyProperties.

(** A method that alters the object it is called with, as the reference
    application's do, writes to no other HDA. *)
Lemma kept_alter (f : HDA.t → HDA.t) (keep : HDA.t → HDA.t → Prop) c hp :
  (∀ o, keep o (f o)) → kept c keep hp (set_hdas (alter f c) hp).
Proof.
  intros Hkeep. split.
  - intros x Hx. by apply lookup_set_hdas_alter_ne.
  - intros o Ho. exists (f o). split; [by apply lookup_set_hdas_alter | auto].
Defined.

(** The run of [copy] of HDA 11 into history 102 in the reference
    application. *)
Lemma reference_copy_run keep keep_peek :
  (∀ o f, f = HDA.with_history (Some 102%nat) ∨ f = HDA.with_total_size 42 →
          keep o (f o)) →
  (∀ o, keep_peek o (HDA.with_peek (Some "recomputed peek") o)) →
  let c := copy_ref Reference.heap0 in
  let hp1 := @copy_constructed_store Reference.app Reference.hda_maf ∅
               Reference.heap0 in
  let hp2 := (@add_dataset Reference.app 102%nat c hp1).2 in
  let hp4 := (@set_size Reference.app c
                (copy_provenance_store 11%nat c hp2)).2 in
  let hp5 := (@session_add Reference.app c hp4).2 in
  let hp6 := (@session_flush Reference.app hp5).2 in
  let hp8 := (@set_peek Reference.app c
                (copy_metadata_store Reference.hda_maf c hp6)).2 in
  let hp9 := (@session_flush Reference.app hp8).2 in
  @CopyRun Reference.app keep keep_peek 11%nat Reference.hda_maf
    (Some 102%nat) ∅ Reference.heap0 hp2 hp4 hp5 hp6 hp8 hp9.
Proof.
  intros Hkeep Hpeek c hp1 hp2 hp4 hp5 hp6 hp8 hp9.
  split; try reflexivity.
  - apply kept_alter. intros o. apply Hkeep. by left.
  - apply kept_alter. intros o. apply Hkeep. by right.
  - apply kept_alter. exact Hpeek.
Defined.


(** C3, as stated, fails on the peek: HDA 11 of the reference store has a
    datatype whose peek is not safe to copy, so [copy] has [set_peek]
    recompute the peek of the new object, which then differs from the
    source's. *)
Lemma copy_peek_not_preserved :
  ∃ c w' o,
    @HDAManager.copy Reference.app Reference.trans_anon 11%nat None ∅
      Reference.world0 = (Ok c, w') ∧
    hdas Reference.heap0 !! 11%nat = Some Reference.hda_maf ∧
    hdas (heap w') !! c = Some o ∧
    HDA.peek Reference.hda_maf = Some "peek of 11" ∧
    HDA.peek o = Some "recomputed peek" ∧
    HDA.peek o ≠ HDA.peek Reference.hda_maf.
Proof.
  eexists _, _, _.
  split; [vm_compute; reflexivity|].
  split; [reflexivity|].
  split; [vm_compute; reflexivity|].
  split; [reflexivity|]. split; [reflexivity|]. discriminate.
Qed.

Lemma copy_preserves_content_witness :
  ∃ c hp8 hp9 o,
    @HDAManager.copy Reference.app Reference.trans_anon 11%nat (Some 102%nat)
      ∅ Reference.world0
    = (Ok c, mkWorld hp9 (copy_events (Some 102%nat) false c)) ∧
    hdas Reference.heap0 !! c = None ∧ c ≠ 11%nat ∧
    hdas hp9 !! c = Some o ∧
    same_content Reference.hda_maf o ∧
    HDA.copied_from_history_dataset_association o = Some 11%nat ∧
    HDA.metadata o = VNone ∧
    hdas hp8 !! c = Some o ∧
    HDA.peek o = Some "recomputed peek" ∧
    hdas hp9 !! 11%nat = Some Reference.hda_maf.
Proof.
  destruct (@copy_preserves_content Reference.app Reference.trans_anon 11%nat
              (Some 102%nat) ∅ Reference.hda_maf Reference.world0
              _ _ _ _ _ _ eq_refl
              (reference_copy_run same_copied same_copied_but_peek
                 ltac:(intros o f [-> | ->]; by destruct o)
                 ltac:(by intros [])))
    as (Heq & Hfresh & Hne & (o & Ho & Hc & Hf & Hm & _ & Hpeek) & Hsrc).
  specialize (Hpeek eq_refl).
  eexists _, _, _, o.
  split; [exact Heq|]. split; [exact Hfresh|]. split; [exact Hne|].
  split; [exact Ho|]. split; [exact Hc|]. split; [exact Hf|].
  split; [exact Hm|]. split; [exact Hpeek|]. split; [|exact Hsrc].
  vm_compute in Hpeek. by injection Hpeek as <-.
Defined.


(** * Further properties of the manager *)

Section AccessProperties.
Context `{App}.

(** X1. For a user who is no administrator and an HDA that has a history,
    [is_owner] answers [True] exactly when the user is anonymous and the
    history is the session's current one, or [history.user == user]; it
    writes nothing. *)
Theorem is_owner_by_history trans hda user w h hist hi :
  hdas (heap w) !! hda = Some h →
  HDA.history h = Some hist →
  histories (heap w) !! hist = Some hi →
  is_admin trans user = false →
  HDAManager.is_owner trans hda user w
  = (Ok (is_anonymous user && bool_decide (Some hist = Trans.get_history trans)
         || bool_decide (History.user hi = user)), w).
Proof.
  intros Hh Hhist Hhi Ha.
  destruct (is_anonymous user) eqn:Hanon; simpl.
  - by apply is_owner_anonymous with (h := h).
  - by apply is_owner_regular with (h := h) (hist := hist).
Qed.

(** X2. An administrator owns and may access every HDA, one without a history
    included, and the inherited access check is not consulted. *)
Theorem admin_owns_and_accesses trans hda user w h :
  hdas (heap w) !! hda = Some h →
  is_admin trans user = true →
  HDAManager.is_owner trans hda user w = (Ok true, w) ∧
  HDAManager.is_accessible trans hda user w = (Ok true, w).
Proof.
  intros Hh Ha.
  pose proof (is_owner_admin trans hda user w h Hh Ha) as Hown.
  split; [done|].
  unfold HDAManager.is_accessible. unfold_monad. by rewrite Hown.
Qed.

(** X3. For an HDA without a history and a user who is no administrator,
    [is_owner] has no [history.user] to read: unless the user is anonymous
    and the session has no current history either, it raises
    [AttributeError], and so does [is_accessible], without asking the
    inherited check and without writing. *)
Theorem no_history_raises trans hda user w h :
  hdas (heap w) !! hda = Some h →
  HDA.history h = None →
  is_admin trans user = false →
  is_anonymous user = false ∨ Trans.get_history trans ≠ None →
  HDAManager.is_owner trans hda user w = (Raise (AttributeError "user"), w) ∧
  HDAManager.is_accessible trans hda user w
  = (Raise (AttributeError "user"), w).
Proof.
  intros Hh Hhist Ha Hanon.
  pose proof (is_owner_no_history trans hda user w h Hh Hhist Ha Hanon) as Hown.
  split; [done|].
  unfold HDAManager.is_accessible. unfold_monad. by rewrite Hown.
Qed.

(** X4. An anonymous user whose session has no current history owns every HDA
    that has no history: the comparison of the two histories is [None ==
    None]. *)
Theorem anonymous_without_history_owns trans hda user w h :
  hdas (heap w) !! hda = Some h →
  HDA.history h = None →
  Trans.get_history trans = None →
  is_admin trans user = false →
  is_anonymous user = true →
  HDAManager.is_owner trans hda user w = (Ok true, w).
Proof.
  intros Hh Hhist Hcur Ha Hanon. unfold HDAManager.is_owner. unfold_monad.
  rewrite Hh, Ha, Hanon, Hhist, Hcur. reflexivity.
Qed.

(** X5. When both [is_owner] and the inherited check answer, [is_accessible]
    answers their disjunction: the override only widens access. *)
Theorem is_accessible_is_disjunction trans hda user w b w' b' h' :
  HDAManager.is_owner trans hda user w = (Ok b, w') →
  super_is_accessible trans hda user (heap w) = (Ok b', h') →
  fst (HDAManager.is_accessible trans hda user w) = Ok (b || b').
Proof.
  intros Hown Hsuper.
  pose proof (is_owner_pure _ _ _ _ _ _ Hown) as ->.
  unfold HDAManager.is_accessible. unfold_monad. rewrite Hown.
  destruct b; [done|]. by rewrite Hsuper.
Qed.

End AccessProperties.

Lemma is_owner_by_history_witness :
  @HDAManager.is_owner Reference.app Reference.trans_user 10%nat (Some 1%nat)
    Reference.world0 = (Ok true, Reference.world0).
Proof.
  apply (@is_owner_by_history Reference.app Reference.trans_user 10%nat
           (Some 1%nat) Reference.world0 Reference.hda_text 100%nat
           (History.mk (Some 1%nat))); reflexivity.
Defined.

Lemma admin_owns_and_accesses_witness :
  @HDAManager.is_owner ReferenceVariants.admin_app
    ReferenceVariants.trans_admin 12%nat (Some 2%nat)
    ReferenceVariants.world1 = (Ok true, ReferenceVariants.world1) ∧
  @HDAManager.is_accessible ReferenceVariants.admin_app
    ReferenceVariants.trans_admin 12%nat (Some 2%nat)
    ReferenceVariants.world1 = (Ok true, ReferenceVariants.world1).
Proof.
  apply (@admin_owns_and_accesses ReferenceVariants.admin_app
           ReferenceVariants.trans_admin 12%nat (Some 2%nat)
           ReferenceVariants.world1 ReferenceVariants.hda_orphan);
    reflexivity.
Defined.

Lemma no_history_raises_witness :
  @HDAManager.is_owner Reference.app ReferenceVariants.trans_other 12%nat
    (Some 3%nat) ReferenceVariants.world1
  = (Raise (AttributeError "user"), ReferenceVariants.world1) ∧
  @HDAManager.is_accessible Reference.app ReferenceVariants.trans_other
    12%nat (Some 3%nat) ReferenceVariants.world1
  = (Raise (AttributeError "user"), ReferenceVariants.world1).
Proof.
  apply (@no_history_raises Reference.app ReferenceVariants.trans_other
           12%nat (Some 3%nat) ReferenceVariants.world1
           ReferenceVariants.hda_orphan); try reflexivity.
  left. reflexivity.
Defined.

Lemma anonymous_without_history_owns_witness :
  @HDAManager.is_owner Reference.app ReferenceVariants.trans_fresh 12%nat
    None ReferenceVariants.world1 = (Ok true, ReferenceVariants.world1).
Proof.
  apply (@anonymous_without_history_owns Reference.app
           ReferenceVariants.trans_fresh 12%nat None ReferenceVariants.world1
           ReferenceVariants.hda_orphan); reflexivity.
Defined.

Lemma is_accessible_is_disjunction_witness :
  fst (@HDAManager.is_accessible ReferenceVariants.admin_app
         ReferenceVariants.trans_other 10%nat (Some 3%nat) Reference.world0)
  = Ok (false || true).
Proof.
  apply (@is_accessible_is_disjunction ReferenceVariants.admin_app
           ReferenceVariants.trans_other 10%nat (Some 3%nat) Reference.world0
           false Reference.world0 true Reference.heap0); reflexivity.
Defined.

Section CreateAndPurgeFailures.
Context `{App}.

(** X6. A caller's own [sa_session] keyword collides with the one [create]
    passes to the parent: a [TypeError], before any collaborator is called
    and with the store as it was. *)
Theorem create_rejects_own_sa_session trans history dataset flush kwargs v w :
  kwargs !! "sa_session" = Some v →
  HDAManager.create trans history dataset flush kwargs w
  = (Raise (TypeError "got multiple values for keyword argument 'sa_session'"),
     w).
Proof.
  intros Hsa. unfold HDAManager.create.
  rewrite bool_decide_eq_true_2; [done|].
  destruct dataset; [by rewrite Hsa|].
  rewrite lookup_insert_ne by done. by rewrite Hsa.
Qed.

(** X7. Whatever the collaborators do, the first thing [create] calls is the
    parent's [create]; it hands over the caller's keywords unchanged, except
    that [create_dataset] is forced to [True] when no dataset is given, and
    when the parent raises, [create] raises the same with nothing else
    called. *)
Theorem create_calls_parent_first trans history dataset flush kwargs w :
  kwargs !! "sa_session" = None →
  ∃ kwargs',
    kwargs' !! "create_dataset"
      = (if dataset is None then Some (VBool true)
         else kwargs !! "create_dataset") ∧
    (∀ k, k ≠ "create_dataset" → kwargs' !! k = kwargs !! k) ∧
    (∃ rest, log (snd (HDAManager.create trans history dataset flush kwargs w))
             = (log w ++ EvSuperCreate trans flush history dataset kwargs'
                         :: rest)%list) ∧
    (∀ e h1,
       super_create trans flush history dataset kwargs' (heap w) = (Raise e, h1) →
       HDAManager.create trans history dataset flush kwargs w
       = (Raise e, mkWorld h1 (log w ++ [EvSuperCreate trans flush history
                                           dataset kwargs']))).
Proof.
  intros Hsa.
  set (kwargs' := if dataset is None
                  then <["create_dataset" := VBool true]> kwargs else kwargs).
  assert (Hsa' : kwargs' !! "sa_session" = None).
  { subst kwargs'. destruct dataset; [done|]. by rewrite lookup_insert_ne. }
  exists kwargs'. split; [|split; [|split]].
  - subst kwargs'. destruct dataset; [done|]. apply lookup_insert_eq.
  - intros k Hk. subst kwargs'. destruct dataset; [done|].
    by rewrite lookup_insert_ne.
  - unfold HDAManager.create. fold kwargs'.
    rewrite bool_decide_eq_false_2
      by (rewrite Hsa'; intros [? ?]; discriminate).
    unfold_monad.
    destruct (super_create trans flush history dataset kwargs' (heap w))
      as [[hda|e] h1]; simpl; [|by exists []].
    destruct history as [hist|]; simpl.
    + destruct (add_dataset hist hda h1) as [[[]|e] h2]; simpl;
        [|eexists; rewrite <- app_assoc; reflexivity].
      destruct (session_add hda h2) as [[[]|e] h3]; simpl;
        [|eexists; rewrite <- !app_assoc; reflexivity].
      destruct flush; simpl;
        [|eexists; rewrite <- !app_assoc; reflexivity].
      destruct (session_flush h3) as [[[]|e] h4]; simpl;
        eexists; rewrite <- !app_assoc; reflexivity.
    + destruct (session_add hda h1) as [[[]|e] h3]; simpl;
        [|eexists; rewrite <- !app_assoc; reflexivity].
      destruct flush; simpl;
        [|eexists; rewrite <- !app_assoc; reflexivity].
      destruct (session_flush h3) as [[[]|e] h4]; simpl;
        eexists; rewrite <- !app_assoc; reflexivity.
  - intros e h1 Hc. unfold HDAManager.create. fold kwargs'.
    rewrite bool_decide_eq_false_2
      by (rewrite Hsa'; intros [? ?]; discriminate).
    unfold_monad. by rewrite Hc.
Qed.

(** X8. When [history.add_dataset] raises, [create] raises the same: the HDA the
    parent created is neither added to the session nor flushed by
    [create]. *)
Theorem create_stops_when_history_refuses
    trans hist dataset flush kwargs w hda h1 e h2 :
  let kwargs' := if dataset is None
                 then <["create_dataset" := VBool true]> kwargs else kwargs in
  kwargs !! "sa_session" = None →
  super_create trans flush (Some hist) dataset kwargs' (heap w) = (Ok hda, h1) →
  add_dataset hist hda h1 = (Raise e, h2) →
  HDAManager.create trans (Some hist) dataset flush kwargs w
  = (Raise e,
     mkWorld h2 (log w ++ [EvSuperCreate trans flush (Some hist) dataset kwargs';
                           EvAddDataset hist hda])).
Proof.
  intros kwargs' Hsa Hc Ha.
  assert (Hsa' : kwargs' !! "sa_session" = None).
  { subst kwargs'. destruct dataset; [done|]. by rewrite lookup_insert_ne. }
  unfold HDAManager.create. fold kwargs'.
  rewrite bool_decide_eq_false_2
    by (rewrite Hsa'; intros [? ?]; discriminate).
  unfold_monad. rewrite Hc. simpl. rewrite Ha. simpl.
  by rewrite <- app_assoc.
Qed.

(** X9. When the inherited purge raises, [purge] raises the same: no quota
    amount is asked for and no disk usage is written. *)
Theorem purge_inherited_failure trans hda flush w e h1 :
  super_purge trans hda flush (heap w) = (Raise e, h1) →
  HDAManager.purge trans hda flush w
  = (Raise e, mkWorld h1 (log w ++ [EvSuperPurge trans hda flush])).
Proof.
  intros Hsuper. unfold HDAManager.purge. unfold_monad. by rewrite Hsuper.
Qed.

(** X10. When [quota_amount] raises, [purge] raises the same after the inherited
    purge has taken place, and the user's disk usage is not written: the
    users are as [quota_amount] left them. *)
Theorem purge_quota_amount_failure trans hda flush w h1 u usr e h2 :
  super_purge trans hda flush (heap w) = (Ok (), h1) →
  Trans.user trans = Some u →
  users h1 !! u = Some usr →
  quota_amount hda u h1 = (Raise e, h2) →
  HDAManager.purge trans hda flush w
  = (Raise e, mkWorld h2 (log w ++ [EvSuperPurge trans hda flush;
                                    EvQuotaAmount hda u])).
Proof.
  intros Hsuper Hu Husr Hq. unfold HDAManager.purge. unfold_monad.
  rewrite Hsuper, Hu. simpl. rewrite Husr. simpl. rewrite Hq. simpl.
  by rewrite <- app_assoc.
Qed.

End CreateAndPurgeFailures.

Lemma create_rejects_own_sa_session_witness :
  @HDAManager.create Reference.app Reference.trans_user (Some 100%nat) None
    true {[ "sa_session" := VNone ]} Reference.world0
  = (Raise (TypeError "got multiple values for keyword argument 'sa_session'"),
     Reference.world0).
Proof.
  apply (@create_rejects_own_sa_session Reference.app Reference.trans_user
           (Some 100%nat) None true {[ "sa_session" := VNone ]} VNone
           Reference.world0).
  reflexivity.
Defined.

Lemma create_calls_parent_first_witness :
  ∃ kwargs',
    kwargs' !! "create_dataset" = Some (VBool true) ∧
    (∀ k, k ≠ "create_dataset" →
          kwargs' !! k = ({[ "create_dataset" := VBool false ]}
                            : gmap string Value) !! k) ∧
    (∃ rest, log (snd (@HDAManager.create Reference.app Reference.trans_user
                         None None false {[ "create_dataset" := VBool false ]}
                         Reference.world0))
             = EvSuperCreate Reference.trans_user false None None kwargs'
                 :: rest) ∧
    (∀ e h1,
       @super_create Reference.app Reference.trans_user false None None
         kwargs' Reference.heap0 = (Raise e, h1) →
       @HDAManager.create Reference.app Reference.trans_user None None false
         {[ "create_dataset" := VBool false ]} Reference.world0
       = (Raise e, mkWorld h1 [EvSuperCreate Reference.trans_user false None
                                 None kwargs'])).
Proof.
  apply (@create_calls_parent_first Reference.app Reference.trans_user None
           None false {[ "create_dataset" := VBool false ]} Reference.world0).
  reflexivity.
Defined.

Lemma create_stops_when_history_refuses_witness :
  ∃ hda h2 kwargs',
    @HDAManager.create ReferenceVariants.failing_app Reference.trans_user
      (Some 100%nat) None true ∅ Reference.world0
    = (Raise (OtherError "history is purged"),
       mkWorld h2 [EvSuperCreate Reference.trans_user true (Some 100%nat) None
                     kwargs';
                   EvAddDataset 100%nat hda]).
Proof.
  eexists _, _, _.
  eapply (@create_stops_when_history_refuses ReferenceVariants.failing_app
            Reference.trans_user 100%nat None true ∅ Reference.world0);
    reflexivity.
Defined.

Lemma purge_inherited_failure_witness :
  @HDAManager.purge ReferenceVariants.failing_app Reference.trans_user 11%nat
    true Reference.world0
  = (Raise (OtherError "purge not allowed"),
     mkWorld Reference.heap0 [EvSuperPurge Reference.trans_user 11%nat true]).
Proof.
  apply (@purge_inherited_failure ReferenceVariants.failing_app
           Reference.trans_user 11%nat true Reference.world0).
  reflexivity.
Defined.

Lemma purge_quota_amount_failure_witness :
  ∃ h2,
    @HDAManager.purge ReferenceVariants.failing_app Reference.trans_user
      10%nat true Reference.world0
    = (Raise (OtherError "no quota source"),
       mkWorld h2 [EvSuperPurge Reference.trans_user 10%nat true;
                   EvQuotaAmount 10%nat 1%nat]) ∧
    users h2 !! 1%nat = Some (User.mk 1000).
Proof.
  eexists. split.
  - eapply (@purge_quota_amount_failure ReferenceVariants.failing_app
              Reference.trans_user 10%nat true Reference.world0);
      reflexivity.
  - reflexivity.
Defined.

Section CopyFrame.
Context `{App}.

(** X11. [copy] writes to no HDA that existed before.  Take a run of [copy]
    in which the collaborators that are called return, [add_dataset],
    [set_size] and [set_peek] write to no HDA but the one they are called
    with (and leave it in the store), and the session writes no HDA.  Then
    [copy] returns a reference that was free, which now holds the copy, and
    every other HDA of the store, the source among them, is exactly as it
    was. *)
Theorem copy_touches_only_the_copy trans hda history kwargs h w
    hp2 hp4 hp5 hp6 hp8 hp9 :
  hdas (heap w) !! hda = Some h →
  CopyRun (λ _ _, True) (λ _ _, True) hda h history kwargs (heap w)
          hp2 hp4 hp5 hp6 hp8 hp9 →
  let c := copy_ref (heap w) in
  HDAManager.copy trans hda history kwargs w
  = (Ok c, mkWorld hp9 (log w ++ copy_events history
                                   (Datatype.copy_safe_peek (HDA.datatype h))
                                   c)) ∧
  hdas (heap w) !! c = None ∧
  is_Some (hdas hp9 !! c) ∧
  ∀ x, x ≠ c → hdas hp9 !! x = hdas (heap w) !! x.
Proof.
  intros Hsrc Run c.
  split; [exact (copy_run_exact _ _ trans hda history kwargs h w _ _ _ _ _ _
                  Hsrc Run)|].
  split; [apply copy_ref_fresh|]. split.
  - destruct (copy_run_inv (λ _ _, True) (λ _ _, True)
                (λ _, True) (λ _, True) (λ _, True) (λ _, True)
                hda history kwargs h (heap w) hp2 hp4 hp5 hp6 hp8 hp9 Hsrc Run)
      as [_ (_ & o & Ho & _)]; try done.
  - intros x Hx.
    rewrite (run_last_flush_kept _ _ _ _ _ _ _ _ _ _ _ _ _ Run).
    rewrite (proj1 (run_set_peek_kept _ _ _ _ _ _ _ _ _ _ _ _ _ Run) x Hx).
    unfold copy_metadata_store.
    rewrite lookup_set_hdas_alter_ne by done.
    rewrite (run_flush_kept _ _ _ _ _ _ _ _ _ _ _ _ _ Run).
    rewrite (run_session_add_kept _ _ _ _ _ _ _ _ _ _ _ _ _ Run).
    rewrite (proj1 (run_set_size_kept _ _ _ _ _ _ _ _ _ _ _ _ _ Run) x Hx).
    unfold copy_provenance_store.
    rewrite lookup_set_hdas_alter_ne by done.
    rewrite (proj1 (run_add_dataset_kept _ _ _ _ _ _ _ _ _ _ _ _ _ Run) x Hx).
    unfold copy_constructed_store. simpl. by rewrite lookup_insert_ne.
Qed.

(** X12. When [history.add_dataset], called with the newly constructed
    object, raises, [copy] raises the same and leaves the store that call
    left: the object was constructed with the [copy_constructed] attributes,
    its [copied_from_history_dataset_association] still the constructor's
    default, and [copy] has neither assigned the provenance, nor sized the
    object, nor added it to the session. *)
Theorem copy_stops_when_history_refuses trans hda hist kwargs h w e hp2 :
  let c := copy_ref (heap w) in
  hdas (heap w) !! hda = Some h →
  add_dataset hist c (copy_constructed_store h kwargs (heap w))
    = (Raise e, hp2) →
  HDAManager.copy trans hda (Some hist) kwargs w
  = (Raise e, mkWorld hp2 (log w ++ [EvNew c; EvAddDataset hist c])) ∧
  hdas (heap w) !! c = None ∧
  hdas (copy_constructed_store h kwargs (heap w)) !! c
    = Some (copy_constructed h kwargs) ∧
  HDA.copied_from_history_dataset_association (copy_constructed h kwargs)
    = HDA.copied_from_history_dataset_association new_hda.
Proof.
  intros c Hsrc Hadd.
  split; [|split; [apply copy_ref_fresh | split; [apply lookup_insert_eq | done]]].
  unfold HDAManager.copy.
  rewrite (bind_ok _ _ w h w) by (unfold get_hda, load; by rewrite Hsrc).
  set (w1 := mkWorld (copy_constructed_store h kwargs (heap w))
                     (log w ++ [EvNew c])).
  rewrite (bind_ok _ _ w c w1) by reflexivity.
  unfold_monad. simpl. fold c. rewrite Hadd. simpl.
  by rewrite <- app_assoc.
Qed.

End CopyFrame.

Lemma copy_touches_only_the_copy_witness :
  ∃ c hp9,
    @HDAManager.copy Reference.app Reference.trans_anon 11%nat
      (Some 102%nat) ∅ Reference.world0
    = (Ok c, mkWorld hp9 (copy_events (Some 102%nat) false c)) ∧
    hdas Reference.heap0 !! c = None ∧
    is_Some (hdas hp9 !! c) ∧
    ∀ x, x ≠ c → hdas hp9 !! x = hdas Reference.heap0 !! x.
Proof.
  eexists _, _.
  apply (@copy_touches_only_the_copy Reference.app Reference.trans_anon
           11%nat (Some 102%nat) ∅ Reference.hda_maf Reference.world0
           _ _ _ _ _ _ eq_refl
           (reference_copy_run (λ _ _, True) (λ _ _, True)
              ltac:(done) ltac:(done))).
Defined.

Lemma copy_stops_when_history_refuses_witness :
  ∃ c hp2,
    @HDAManager.copy ReferenceVariants.failing_app Reference.trans_user
      10%nat (Some 100%nat) ∅ Reference.world0
    = (Raise (OtherError "history is purged"),
       mkWorld hp2 [EvNew c; EvAddDataset 100%nat c]) ∧
    hdas Reference.heap0 !! c = None ∧
    hdas hp2 !! c
      = Some (@copy_constructed ReferenceVariants.failing_app
                Reference.hda_text ∅) ∧
    HDA.copied_from_history_dataset_association
      (@copy_constructed ReferenceVariants.failing_app Reference.hda_text ∅)
    = None.
Proof.
  eexists _, _.
  apply (@copy_stops_when_history_refuses ReferenceVariants.failing_app
           Reference.trans_user 10%nat 100%nat ∅ Reference.hda_text
           Reference.world0); reflexivity.
Defined.

Section DataAndStateProperties.
Context `{App}.

(** X13. [text_data] never writes the store, and never returns file contents nor
    reports truncation: every normal return is [(False, None)]. *)
Theorem text_data_never_returns_data hda preview w res w' :
  HDAManager.text_data hda preview w = (res, w') →
  w' = w ∧ ∀ r, res = Ok r → r = (false, None).
Proof.
  unfold HDAManager.text_data. unfold_monad.
  destruct (hdas (heap w) !! hda) as [h|]; [|by intros [= <- <-]].
  destruct (Datatype.is_Text (HDA.datatype h)); simpl;
    [|intros [= <- <-]; split; [done|]; by intros r [= <-]].
  destruct (files (heap w) !! HDA.file_name h) as [content|];
    [|intros [= <- <-]; split; [done|]; by intros r [= <-]].
  destruct preview; simpl; by intros [= <- <-].
Qed.

(** X14. [data_conversion_status] returns no message ([None]) only for an HDA
    whose state is the OK state and not the ERROR state. *)
Theorem data_conversion_status_none_only_when_ok trans hda w w' :
  HDAManager.data_conversion_status trans hda w = (Ok VNone, w') →
  ∃ r h, hda = Some r ∧ hdas (heap w) !! r = Some h ∧
         HDA.state h = Job_states_OK ∧ HDA.state h ≠ Job_states_ERROR.
Proof.
  unfold HDAManager.data_conversion_status. unfold_monad.
  destruct hda as [r|]; [|discriminate].
  destruct (hdas (heap w) !! r) as [h|] eqn:Hh; [|discriminate].
  case_bool_decide as He; [discriminate|].
  case_bool_decide as Ho; simpl; [|discriminate].
  intros _. by exists r, h.
Qed.

(** X15. The two state checks agree, provided the UPLOAD state is neither the
    ERROR nor the OK state: an HDA that [error_if_uploading] rejects is
    reported as pending by [data_conversion_status], and an HDA for which
    [data_conversion_status] has no message passes [error_if_uploading]. *)
Theorem uploading_is_pending trans hda w :
  Dataset_states_UPLOAD ≠ Job_states_ERROR →
  Dataset_states_UPLOAD ≠ Job_states_OK →
  (∀ msg w', HDAManager.error_if_uploading trans hda w = (Raise (Conflict msg), w') →
     HDAManager.data_conversion_status trans (Some hda) w
     = (Ok (VStr conversion_messages_PENDING), w)) ∧
  (∀ w', HDAManager.data_conversion_status trans (Some hda) w = (Ok VNone, w') →
     HDAManager.error_if_uploading trans hda w = (Ok hda, w)).
Proof.
  intros Hue Huo.
  unfold HDAManager.error_if_uploading, HDAManager.data_conversion_status.
  unfold_monad.
  destruct (hdas (heap w) !! hda) as [h|]; [|split; intros; discriminate].
  split.
  - intros msg w'. case_bool_decide as Hup; [|discriminate]. intros _.
    rewrite Hup. by rewrite !bool_decide_eq_false_2.
  - intros w'. case_bool_decide as He; [discriminate|].
    case_bool_decide as Ho; simpl; [|discriminate]. intros _.
    rewrite bool_decide_eq_false_2; [done | congruence].
Qed.

End DataAndStateProperties.

Lemma text_data_never_returns_data_witness :
  Reference.world0 = Reference.world0 ∧
  ∀ r, Ok (false, None) = Ok r → r = (false, @None (list Byte.byte)).
Proof.
  apply (text_data_never_returns_data 11%nat true Reference.world0
           (Ok (false, None)) Reference.world0).
  reflexivity.
Defined.

Lemma data_conversion_status_none_only_when_ok_witness :
  ∃ r h, Some 10%nat = Some r ∧ hdas Reference.heap0 !! r = Some h ∧
         HDA.state h = "ok" ∧ HDA.state h ≠ "error".
Proof.
  apply (@data_conversion_status_none_only_when_ok Reference.app
           Reference.trans_user (Some 10%nat) Reference.world0
           Reference.world0).
  reflexivity.
Defined.

Lemma uploading_is_pending_witness :
  @HDAManager.data_conversion_status Reference.app Reference.trans_anon
    (Some 11%nat) Reference.world0 = (Ok (VStr "pending"), Reference.world0).
Proof.
  destruct (@uploading_is_pending Reference.app Reference.trans_anon 11%nat
              Reference.world0) as [Hpending _];
    [discriminate | discriminate |].
  apply (Hpending "Please wait until this dataset finishes uploading"
           Reference.world0).
  reflexivity.
Defined.

(** * Further properties of the serializer and the deserializer *)

(** Updating a table: its keys afterwards, and the entries it keeps. *)
Lemma update_dom {A} (d : gmap string A) entries :
  dom (update d entries) = list_to_set entries.*1 ∪ dom d.
Proof. unfold update. by rewrite dom_union_L, dom_list_to_map_L. Qed.

Lemma update_lookup_other {A} (d : gmap string A) entries k :
  k ∉ entries.*1 → update d entries !! k = d !! k.
Proof.
  intros Hk. unfold update. apply lookup_union_r.
  by apply not_elem_of_list_to_map.
Qed.

Section TableProperties.
Context `{App}.
Variables (base : gmap string Serializer) (dbase : gmap string Deserializer).

(** X16. [add_serializers] removes no serializer: the table's keys afterwards are
    the inherited keys and the twenty keys of its dictionary, and every
    other key keeps its inherited serializer. *)
Theorem add_serializers_keys :
  dom (HDASerializer.add_serializers base)
    = list_to_set serializer_keys ∪ dom base ∧
  ∀ k, k ∉ serializer_keys →
       HDASerializer.add_serializers base !! k = base !! k.
Proof.
  unfold HDASerializer.add_serializers. split.
  - by rewrite update_dom.
  - intros k Hk. by apply update_lookup_other.
Qed.

(** X17. [add_deserializers] removes no deserializer and registers exactly the
    payload keys 'visible', 'genome_build' and 'misc_info'; afterwards every
    key that has a deserializer, inherited or new, is in
    [deserializable_keyset], which lost no key. *)
Theorem add_deserializers_keys (keyset : gset string) :
  dom (HDADeserializer.add_deserializers dbase)
    = list_to_set deserializer_keys ∪ dom dbase ∧
  (∀ k, k ∉ deserializer_keys →
        HDADeserializer.add_deserializers dbase !! k = dbase !! k) ∧
  (∀ k, is_Some (HDADeserializer.add_deserializers dbase !! k) →
        k ∈ update_deserializable_keyset keyset dbase) ∧
  keyset ⊆ update_deserializable_keyset keyset dbase.
Proof.
  unfold update_deserializable_keyset, HDADeserializer.add_deserializers.
  split; [by rewrite update_dom|].
  split; [intros k Hk; by apply update_lookup_other|].
  split; [|set_solver].
  intros k Hk. apply elem_of_union_r. by apply elem_of_dom.
Qed.

(** X18. 'type_id' is the text 'dataset-' followed by what the inherited 'id'
    serializer returns, which is called with the key 'id' whatever key was
    asked for; without an 'id' serializer it is a [KeyError]. *)
Theorem type_id_prefixes_id trans hda w :
  (base !! "id" = None →
     HDASerializer.apply_serializer (HDASerializer.add_serializers base)
       trans hda "type_id" w = (Raise (KeyError "id"), w)) ∧
  (∀ (ser : Serializer) s w',
     base !! "id" = Some ser →
     ser trans hda "id" w = (Ok (VStr s), w') →
     HDASerializer.apply_serializer (HDASerializer.add_serializers base)
       trans hda "type_id" w = (Ok (VStr ("dataset-" ++ s)), w')) ∧
  (∀ (ser : Serializer) e w',
     base !! "id" = Some ser →
     ser trans hda "id" w = (Raise e, w') →
     HDASerializer.apply_serializer (HDASerializer.add_serializers base)
       trans hda "type_id" w = (Raise e, w')).
Proof.
  unfold HDASerializer.apply_serializer, HDASerializer.add_serializers, update.
  erewrite lookup_union_Some_l by reflexivity.
  unfold HDASerializer.serialize_type_id. simpl. repeat split.
  - intros Hid. by rewrite Hid.
  - intros ser s w' Hid Hser. rewrite Hid. unfold_monad. by rewrite Hser.
  - intros ser e w' Hid Hser. rewrite Hid. unfold_monad. by rewrite Hser.
Qed.


(** X19. The remaining attribute readers: 'misc_blurb' is the HDA's [blurb],
    'file_ext' its [extension], 'file_path' its [file_name], and
    'resubmitted' tells whether [_state] (not the [state] property) is the
    RESUBMITTED state; none of them writes. *)
Theorem attribute_readers trans item o w :
  hdas (heap w) !! item = Some o →
  let ser := HDASerializer.apply_serializer (HDASerializer.add_serializers base) in
  ser trans item "misc_blurb" w = (Ok (text_value (HDA.blurb o)), w) ∧
  ser trans item "file_ext" w = (Ok (text_value (HDA.extension o)), w) ∧
  ser trans item "file_path" w = (Ok (VStr (HDA.file_name o)), w) ∧
  ser trans item "resubmitted" w
  = (Ok (VBool (bool_decide (HDA._state o = Some Dataset_states_RESUBMITTED))),
     w).
Proof.
  intros Ho ser. subst ser.
  unfold HDASerializer.apply_serializer, HDASerializer.add_serializers, update.
  repeat split;
    (erewrite lookup_union_Some_l by reflexivity);
    unfold HDASerializer._remap_from; unfold_monad; simpl; by rewrite Ho.
Qed.


(** X21. Writing then reading 'genome_build', the inherited serializer reading
    [dbkey]: after deserializing a text under 'genome_build', serializing
    'genome_build' yields that text and 'misc_info' serializes as before. *)
Theorem genome_build_write_then_read trans item o s w :
  base !! "genome_build" = Some HDASerializer.inherited_genome_build →
  hdas (heap w) !! item = Some o →
  let ser := HDASerializer.apply_serializer (HDASerializer.add_serializers base) in
  let deser := HDADeserializer.apply_deserializer
                 (HDADeserializer.add_deserializers dbase) in
  ∃ w', deser trans item "genome_build" (VStr s) w = (Ok (VStr s), w') ∧
        ser trans item "genome_build" w' = (Ok (VStr s), w') ∧
        fst (ser trans item "misc_info" w') = fst (ser trans item "misc_info" w).
Proof.
  intros Hbase Ho ser deser. subst ser deser.
  destruct (deserialize_genome_build_key dbase trans item o s w Ho)
    as (w' & Hd & Ho' & _).
  exists w'. split; [done|]. split.
  - unfold HDASerializer.apply_serializer.
    rewrite serialize_genome_build_inherited, Hbase.
    unfold HDASerializer.inherited_genome_build. unfold_monad. simpl.
    by rewrite Ho'.
  - by rewrite (serialize_misc_info base trans item _ w' Ho'),
       (serialize_misc_info base trans item _ w Ho).
Qed.

End TableProperties.

Lemma add_serializers_keys_witness :
  @HDASerializer.add_serializers Reference.app
    {[ "genome_build" := HDASerializer.inherited_genome_build ]}
    !! "genome_build" = Some HDASerializer.inherited_genome_build.
Proof.
  destruct (@add_serializers_keys Reference.app
              {[ "genome_build" := HDASerializer.inherited_genome_build ]})
    as [_ Hother].
  rewrite Hother; [reflexivity|].
  unfold serializer_keys. rewrite !elem_of_cons, elem_of_nil.
  intros Hk. repeat (destruct Hk as [Hk | Hk]; [discriminate|]). done.
Defined.

Lemma add_deserializers_keys_witness :
  "misc_info" ∈ update_deserializable_keyset ∅ ∅.
Proof.
  destruct (add_deserializers_keys ∅ ∅) as (_ & _ & Hin & _).
  apply Hin. by eexists.
Defined.

Lemma type_id_prefixes_id_witness :
  @HDASerializer.apply_serializer
    (@HDASerializer.add_serializers Reference.app
       {[ "id" := λ _ _ _, mret (VStr "f2db41e1fa331b3e") ]})
    Reference.trans_user 10%nat "type_id" Reference.world0
  = (Ok (VStr "dataset-f2db41e1fa331b3e"), Reference.world0).
Proof.
  destruct (@type_id_prefixes_id Reference.app
              {[ "id" := λ _ _ _, mret (VStr "f2db41e1fa331b3e") ]}
              Reference.trans_user 10%nat Reference.world0)
    as (_ & Hok & _).
  apply (Hok (λ _ _ _, mret (VStr "f2db41e1fa331b3e"))); reflexivity.
Defined.

Lemma attribute_readers_witness :
  let ser := @HDASerializer.apply_serializer
               (@HDASerializer.add_serializers Reference.app ∅) in
  ser Reference.trans_user 12%nat "misc_blurb" ReferenceVariants.world1
    = (Ok (VStr "1 line"), ReferenceVariants.world1) ∧
  ser Reference.trans_user 12%nat "file_ext" ReferenceVariants.world1
    = (Ok (VStr "tabular"), ReferenceVariants.world1) ∧
  ser Reference.trans_user 12%nat "file_path" ReferenceVariants.world1
    = (Ok (VStr "/data/000/dataset_9.dat"), ReferenceVariants.world1) ∧
  ser Reference.trans_user 12%nat "resubmitted" ReferenceVariants.world1
    = (Ok (VBool true), ReferenceVariants.world1).
Proof.
  apply (@attribute_readers Reference.app ∅ Reference.trans_user 12%nat
           ReferenceVariants.hda_orphan ReferenceVariants.world1).
  reflexivity.
Defined.


Lemma genome_build_write_then_read_witness :
  ∃ w', @HDADeserializer.apply_deserializer
          (HDADeserializer.add_deserializers ∅) Reference.trans_user 10%nat
          "genome_build" (VStr "mm10") Reference.world0
          = (Ok (VStr "mm10"), w') ∧
        @HDASerializer.apply_serializer
          (@HDASerializer.add_serializers Reference.app
             {[ "genome_build" := HDASerializer.inherited_genome_build ]})
          Reference.trans_user 10%nat "genome_build" w'
          = (Ok (VStr "mm10"), w') ∧
        fst (@HDASerializer.apply_serializer
               (@HDASerializer.add_serializers Reference.app
                  {[ "genome_build" := HDASerializer.inherited_genome_build ]})
               Reference.trans_user 10%nat "misc_info" w')
        = fst (@HDASerializer.apply_serializer
                 (@HDASerializer.add_serializers Reference.app
                    {[ "genome_build" := HDASerializer.inherited_genome_build ]})
                 Reference.trans_user 10%nat "misc_info" Reference.world0).
Proof.
  apply (@genome_build_write_then_read Reference.app
           {[ "genome_build" := HDASerializer.inherited_genome_build ]} ∅
           Reference.trans_user 10%nat Reference.hda_text "mm10"
           Reference.world0); reflexivity.
Defined.

(** * Properties of the display serializers *)

(** A loop that appends one element per item collects the items' images. *)
Lemma foldl_snoc_fmap {A B} (step : list B → A → list B) (f : A → B)
    (l : list A) (acc : list B) :
  (∀ acc x, step acc x = (acc ++ [f x])%list) →
  foldl step acc l = (acc ++ (f <$> l))%list.
Proof.
  intros Hstep. revert acc. induction l as [|x l IH]; intros acc; simpl.
  - by rewrite app_nil_r.
  - rewrite IH, Hstep. by rewrite <- app_assoc.
Qed.

(** A loop that appends at most one element per item collects the elements
    the items give, in order. *)
Lemma foldl_snoc_omap {A B} (step : list B → A → list B) (f : A → option B)
    (l : list A) (acc : list B) :
  (∀ acc x, step acc x = match f x with
                         | Some y => (acc ++ [y])%list
                         | None => acc
                         end) →
  foldl step acc l = (acc ++ omap f l)%list.
Proof.
  intros Hstep. revert acc. induction l as [|x l IH]; intros acc; simpl.
  - by rewrite app_nil_r.
  - rewrite IH, Hstep. destruct (f x); [|done]. by rewrite <- app_assoc.
Qed.

Section DisplayProperties.
Context `{Display}.

Lemma display_app_links_fmap trans hda links :
  HDASerializerLinks.display_app_links trans hda links
  = link_dict trans hda <$> links.
Proof.
  unfold HDASerializerLinks.display_app_links.
  by rewrite (foldl_snoc_fmap _ (link_dict trans hda)).
Qed.

Lemma serialize_display_apps_omap trans hda key :
  HDASerializerLinks.serialize_display_apps trans hda key
  = omap (app_entry trans hda) (get_display_applications hda trans).
Proof.
  unfold HDASerializerLinks.serialize_display_apps.
  rewrite (foldl_snoc_omap _ (app_entry trans hda)); [done|].
  intros acc a. rewrite display_app_links_fmap. unfold app_entry.
  by destruct (DisplayApplication.links a).
Qed.

Lemma old_display_links_fmap target_frame display_links :
  HDASerializerLinks.old_display_links target_frame display_links
  = old_link_dict target_frame <$> display_links.
Proof.
  unfold HDASerializerLinks.old_display_links.
  rewrite (foldl_snoc_fmap _ (old_link_dict target_frame)); [done|].
  by intros acc [display_name display_link].
Qed.

End DisplayProperties.

Section DisplayTheorems.
Context `{Display}.

(** X22. [serialize_display_apps] lists exactly the display applications that
    have links, in their order and under their names: no entry has an empty
    list of links, and an application without links gets no entry. *)
Theorem display_apps_list_apps_with_links trans hda key :
  let result := HDASerializerLinks.serialize_display_apps trans hda key in
  (∀ e, e ∈ result → AppDict.links e ≠ []) ∧
  AppDict.label <$> result
  = DisplayApplication.name <$>
      filter (λ a, (0 < length (DisplayApplication.links a))%nat)
             (get_display_applications hda trans).
Proof.
  simpl. rewrite serialize_display_apps_omap. split.
  - intros e He. apply list_elem_of_omap in He as (a & _ & Ha).
    unfold app_entry in Ha.
    destruct (DisplayApplication.links a); [discriminate|].
    by injection Ha as <-.
  - induction (get_display_applications hda trans) as [|a apps IH];
      [done|].
    simpl. unfold app_entry at 1.
    destruct (DisplayApplication.links a) as [|l ls] eqn:Hl.
    + rewrite filter_cons_False by (rewrite Hl; simpl; lia). exact IH.
    + rewrite filter_cons_True by (rewrite Hl; simpl; lia).
      simpl. f_equal. exact IH.
Qed.

(** X23. [serialize_display_apps] loses, repeats and reorders no link: the links
    of its entries, read in order, are the dictionaries of all links of all
    display applications, each with the link's url, its translated name,
    and the target frame of its [url] dictionary or ['_blank'] without
    one. *)
Theorem display_apps_keep_every_link trans hda key :
  concat (AppDict.links <$>
            HDASerializerLinks.serialize_display_apps trans hda key)
  = link_dict trans hda <$>
      concat (DisplayApplication.links <$> get_display_applications hda trans).
Proof.
  rewrite serialize_display_apps_omap.
  induction (get_display_applications hda trans) as [|a apps IH]; [done|].
  simpl. unfold app_entry at 1.
  destruct (DisplayApplication.links a) as [|l ls]; [exact IH|].
  rewrite fmap_app. simpl. f_equal. f_equal. exact IH.
Qed.

(** The entry one old-style display type contributes, if any. *)
Lemma serialize_old_display_applications_omap trans hda key :
  HDASerializerLinks.serialize_old_display_applications trans hda key
  = if enable_old_display_applications
    then omap (λ display_app,
                 match get_display_links hda display_app trans with
                 | (_, []) => None
                 | (target_frame, display_links) =>
                     Some (AppDict.mk (get_display_label hda display_app)
                             (old_link_dict target_frame <$> display_links))
                 end)
              (get_display_types hda)
    else [].
Proof.
  unfold HDASerializerLinks.serialize_old_display_applications.
  destruct enable_old_display_applications; [|done]. simpl.
  erewrite foldl_snoc_omap; [done|].
  intros acc t. simpl.
  destruct (get_display_links hda t trans) as [frame [|d dl]]; [done|].
  rewrite bool_decide_eq_true_2 by (simpl; lia).
  by rewrite old_display_links_fmap.
Qed.

(** X24. [serialize_old_display_applications] returns nothing when old display
    applications are disabled, whatever the datatype offers.  When they are
    enabled, every entry stands for a display type of the datatype that has
    at least one link: it carries that type's label and one dictionary per
    (name, link) pair, all with the type's target frame. *)
Theorem old_display_apps_entries trans hda key :
  let result :=
    HDASerializerLinks.serialize_old_display_applications trans hda key in
  (enable_old_display_applications = false → result = []) ∧
  ∀ e, e ∈ result →
    enable_old_display_applications = true ∧
    ∃ display_app target_frame display_links,
      display_app ∈ get_display_types hda ∧
      get_display_links hda display_app trans = (target_frame, display_links) ∧
      display_links ≠ [] ∧
      AppDict.label e = get_display_label hda display_app ∧
      AppDict.links e = old_link_dict target_frame <$> display_links.
Proof.
  simpl. rewrite serialize_old_display_applications_omap. split.
  - by intros ->.
  - intros e He.
    destruct enable_old_display_applications; [|by apply elem_of_nil in He].
    split; [done|].
    apply list_elem_of_omap in He as (t & Ht & He).
    destruct (get_display_links hda t trans) as [frame [|d dl]] eqn:Hlinks;
      [discriminate|].
    injection He as <-. by exists t, frame, (d :: dl).
Qed.

(** X25. With old display applications enabled, the entries are, in order, the
    labels of the display types that have links; a type without links gets
    no entry. *)
Theorem old_display_apps_labels trans hda key :
  enable_old_display_applications = true →
  AppDict.label <$>
    HDASerializerLinks.serialize_old_display_applications trans hda key
  = get_display_label hda <$>
      filter (λ t, (0 < length (get_display_links hda t trans).2)%nat)
             (get_display_types hda).
Proof.
  intros Hon. rewrite serialize_old_display_applications_omap, Hon.
  induction (get_display_types hda) as [|t types IH]; [done|].
  simpl.
  destruct (get_display_links hda t trans) as [frame [|d dl]] eqn:Hlinks.
  - rewrite filter_cons_False by (rewrite Hlinks; simpl; lia). exact IH.
  - rewrite filter_cons_True by (rewrite Hlinks; simpl; lia).
    simpl. f_equal. exact IH.
Qed.

End DisplayTheorems.

Lemma display_apps_list_apps_with_links_witness :
  AppDict.label <$>
    @HDASerializerLinks.serialize_display_apps ReferenceDisplay.display
      Reference.trans_user 10%nat "display_apps"
  = ["UCSC"; "IGV"].
Proof.
  destruct (@display_apps_list_apps_with_links ReferenceDisplay.display
              Reference.trans_user 10%nat "display_apps") as [_ Hlabels].
  rewrite Hlabels. reflexivity.
Defined.

Lemma old_display_apps_entries_witness :
  @enable_old_display_applications ReferenceDisplay.display = true ∧
  ∃ display_app target_frame display_links,
    display_app ∈ @get_display_types ReferenceDisplay.display 10%nat ∧
    @get_display_links ReferenceDisplay.display 10%nat display_app
      Reference.trans_user = (target_frame, display_links) ∧
    display_links ≠ [] ∧
    "ucsc" = @get_display_label ReferenceDisplay.display 10%nat display_app ∧
    [LinkDict.mk "_blank" "/old/ucsc/main" "main";
     LinkDict.mk "_blank" "/old/ucsc/test" "test"]
    = @old_link_dict ReferenceDisplay.display target_frame <$> display_links.
Proof.
  destruct (@old_display_apps_entries ReferenceDisplay.display
              Reference.trans_user 10%nat "display_types") as [_ Hentries].
  apply (Hentries (AppDict.mk "ucsc"
                     [LinkDict.mk "_blank" "/old/ucsc/main" "main";
                      LinkDict.mk "_blank" "/old/ucsc/test" "test"])).
  apply list_elem_of_here.
Defined.

Lemma old_display_apps_labels_witness :
  AppDict.label <$>
    @HDASerializerLinks.serialize_old_display_applications
      ReferenceDisplay.display Reference.trans_user 10%nat "display_types"
  = ["ucsc"].
Proof.
  rewrite (@old_display_apps_labels ReferenceDisplay.display
             Reference.trans_user 10%nat "display_types"); reflexivity.
Defined.
